(** * sport-buddy: the tool adapters and the agent runner

    A shallow embedding of

    - [adk/agents/sports_events_agent/tools.py]  ([search_teams]),
    - [adk/agents/stock_agent/tools.py]          ([get_stock_price]),
    - [adk/agent_runner.py]                      ([run_agent], [main]),

    and the properties the specification states about them.

    Python values are an inductive type, a [str] is its list of code points,
    a [dict] is an association list in insertion order.  Code that can raise
    runs in a small state-and-exception monad; the state is the trace of what
    the program did to the outside world (HTTP requests, library calls, lines
    printed).  What the outside world answers (the remote API, the yfinance
    library, the JSON parser, the agent runtime) is a variable of the section
    that uses it. *)

From Stdlib Require Import String Ascii DecimalString SpecFloat.
From Stdlib Require Import ZArith NArith List Bool Lia.
Import ListNotations.

Set Implicit Arguments.

(* ================================================================== *)
(** * Python values *)
(* ================================================================== *)

(** A Python [str]: the sequence of its code points. *)
Definition pystr := list N.

(** A literal of the source text. *)
Definition py (s : string) : pystr := map N_of_ascii (list_ascii_of_string s).
Arguments py : simpl never.

#[local] Set Warnings "-register-all".

(** The values the adapters see: what [json] decodes to, which is also what
    the agent runtime can pass as an argument. *)
Inductive PyVal : Type :=
| PNone
| PBool (b : bool)
| PInt (z : Z)
| PFloat (f : spec_float)
| PStr (s : pystr)
| PList (l : list PyVal)
| PDict (d : list (pystr * PyVal)).

Definition dict := list (pystr * PyVal).

Fixpoint pystr_eqb (a b : pystr) : bool :=
  match a, b with
  | [], [] => true
  | x :: a', y :: b' => (x =? y)%N && pystr_eqb a' b'
  | _, _ => false
  end.

(** [d.get(k)]: [None] of the option type is an absent key. *)
Fixpoint dict_get (d : dict) (k : pystr) : option PyVal :=
  match d with
  | [] => None
  | (k', v) :: d' => if pystr_eqb k' k then Some v else dict_get d' k
  end.

(** [d.get(k, default)]. *)
Definition dict_get_default (d : dict) (k : pystr) (default : PyVal) : PyVal :=
  match dict_get d k with
  | Some v => v
  | None => default
  end.

Definition has_key (d : dict) (k : pystr) : bool :=
  match dict_get d k with Some _ => true | None => false end.

(** Truth value of an object, as [if x], [not x] and [x and y] test it. *)
Definition truthy (v : PyVal) : bool :=
  match v with
  | PNone => false
  | PBool b => b
  | PInt z => negb (z =? 0)%Z
  | PFloat (S754_zero _) => false
  | PFloat _ => true
  | PStr [] => false
  | PStr _ => true
  | PList [] => false
  | PList _ => true
  | PDict [] => false
  | PDict _ => true
  end.

Definition isinstance_str (v : PyVal) : bool :=
  match v with PStr _ => true | _ => false end.

Definition isinstance_dict (v : PyVal) : bool :=
  match v with PDict _ => true | _ => false end.

(** [v == [None]]: a list compares equal to [[None]] when it has one element
    and that element is [None]; no other decoded value does. *)
Definition eq_list_of_None (v : PyVal) : bool :=
  match v with
  | PList [PNone] => true
  | _ => false
  end.

(** ** Strings *)

(** [Py_UNICODE_ISSPACE]: the code points [str.strip()] removes and the
    regular expression class [\s] matches on a [str] pattern. *)
Definition isspace (c : N) : bool :=
  ((9 <=? c) && (c <=? 13) || (28 <=? c) && (c <=? 32)
   || (c =? 133) || (c =? 160) || (c =? 5760)
   || (8192 <=? c) && (c <=? 8202)
   || (c =? 8232) || (c =? 8233) || (c =? 8239) || (c =? 8287)
   || (c =? 12288))%N.

Fixpoint lstrip (s : pystr) : pystr :=
  match s with
  | c :: s' => if isspace c then lstrip s' else s
  | [] => []
  end.

Definition rstrip (s : pystr) : pystr := rev (lstrip (rev s)).

(** [s.strip()] *)
Definition strip (s : pystr) : pystr := rstrip (lstrip s).

(** The character class [[a-zA-Z0-9\s\-\.\'&]]. *)
Definition team_name_char (c : N) : bool :=
  ((97 <=? c) && (c <=? 122) || (65 <=? c) && (c <=? 90)
   || (48 <=? c) && (c <=? 57)
   || isspace c
   || (c =? 45) || (c =? 46) || (c =? 39) || (c =? 38))%N.

(** [re.match(r'^[a-zA-Z0-9\s\-\.\'&]+$', s)] as a truth value.  [$] also
    matches before a final newline, but the newline is in the class, so the
    pattern matches exactly the non-empty strings over the class. *)
Definition re_match_team_name (s : pystr) : bool :=
  match s with
  | [] => false
  | _ => forallb team_name_char s
  end.

(** [str(n)] for a length. *)
Definition str_of_nat (n : nat) : pystr :=
  py (NilEmpty.string_of_uint (Nat.to_uint n)).

(* ================================================================== *)
(** * Exceptions, the trace, and the monad *)
(* ================================================================== *)

(** The exception classes the program tells apart; the argument is [str(e)].
    [SystemExit] and [KeyboardInterrupt] derive from [BaseException] only,
    the others from [Exception]. *)
Inductive exn : Type :=
| Timeout (msg : pystr)            (* requests.exceptions.Timeout *)
| RequestException (msg : pystr)   (* any other requests exception *)
| JSONDecodeError (msg : pystr)    (* json.JSONDecodeError *)
| OtherException (msg : pystr)     (* any other subclass of Exception *)
| SystemExit (code : Z)
| KeyboardInterrupt.

Definition is_Exception (e : exn) : bool :=
  match e with
  | SystemExit _ | KeyboardInterrupt => false
  | _ => true
  end.

(** [isinstance(e, requests.exceptions.RequestException)] *)
Definition is_RequestException (e : exn) : bool :=
  match e with
  | Timeout _ | RequestException _ => true
  | _ => false
  end.

(** [str(e)] *)
Definition exn_str (e : exn) : pystr :=
  match e with
  | Timeout m | RequestException m | JSONDecodeError m | OtherException m => m
  | SystemExit c => py (NilEmpty.string_of_int (Z.to_int c))
  | KeyboardInterrupt => []
  end.

(** What the program does to the outside world. *)
Inductive event : Type :=
| HttpGet (url : pystr) (t : pystr)   (* requests.get(url, params={'t': t}) *)
| YfTicker (ticker : PyVal)           (* yf.Ticker(ticker) *)
| YfInfo                              (* stock.info *)
| YfHistory (period : pystr)          (* stock.history(period=...) *)
| RunAsync (message : pystr)          (* sports_agent.run_async(message) *)
| Print (text : pystr).               (* print(text) *)

Definition trace := list event.

Inductive outcome (A : Type) : Type :=
| Return (a : A)
| Raise (e : exn).
Arguments Raise {A} e.

Definition M (A : Type) : Type := trace -> outcome A * trace.

Definition ret {A} (a : A) : M A := fun w => (Return a, w).
Definition raise {A} (e : exn) : M A := fun w => (Raise e, w).
Definition bind {A B} (m : M A) (k : A -> M B) : M B :=
  fun w =>
    match m w with
    | (Return a, w') => k a w'
    | (Raise e, w') => (Raise e, w')
    end.
Definition emit (ev : event) : M unit := fun w => (Return tt, w ++ [ev]).
Definition lift {A} (o : outcome A) : M A := fun w => (o, w).

(** [try: m  except ...: ...]: [handler e] is the body of the first clause
    whose class [e] belongs to; an exception that no clause accepts goes on
    to the caller. *)
Definition try_except {A} (m : M A) (handler : exn -> option (M A)) : M A :=
  fun w =>
    match m w with
    | (Return a, w') => (Return a, w')
    | (Raise e, w') =>
        match handler e with
        | Some h => h w'
        | None => (Raise e, w')
        end
    end.

Declare Scope py_scope.
Delimit Scope py_scope with py.
Notation "x <- m ;; k" := (bind m (fun x => k))
  (at level 61, m at next level, right associativity) : py_scope.
Notation "m ;;; k" := (bind m (fun _ => k))
  (at level 61, right associativity) : py_scope.
Open Scope py_scope.

(** Operations of the language that raise on the wrong type. *)

Definition TypeError (msg : pystr) : exn := OtherException msg.
Definition AttributeError (msg : pystr) : exn := OtherException msg.

(** [type(v).__name__] *)
Definition type_name_of (v : PyVal) : pystr :=
  match v with
  | PNone => py "NoneType"
  | PBool _ => py "bool"
  | PInt _ => py "int"
  | PFloat _ => py "float"
  | PStr _ => py "str"
  | PList _ => py "list"
  | PDict _ => py "dict"
  end.

(** [v.strip()]: only a [str] has the method among the values modelled. *)
Definition py_strip (v : PyVal) : outcome pystr :=
  match v with
  | PStr s => Return (strip s)
  | _ => Raise (AttributeError
                  (py "'" ++ type_name_of v ++ py "' object has no attribute 'strip'"))
  end.

(** [len(v)] *)
Definition py_len (v : PyVal) : outcome nat :=
  match v with
  | PStr s => Return (length s)
  | PList l => Return (length l)
  | PDict d => Return (length d)
  | _ => Raise (TypeError
                  (py "object of type '" ++ type_name_of v ++ py "' has no len()"))
  end.

(** [v[:n]] *)
Definition py_slice_to (n : nat) (v : PyVal) : outcome PyVal :=
  match v with
  | PStr s => Return (PStr (firstn n s))
  | PList l => Return (PList (firstn n l))
  | PDict _ => Raise (TypeError (py "unhashable type: 'slice'"))
  | _ => Raise (TypeError
                  (py "'" ++ type_name_of v ++ py "' object is not subscriptable"))
  end.

(** [v + '<suffix>']: only [str + str] is defined when the right operand is
    a [str]. *)
Definition py_add_str (v : PyVal) (suffix : pystr) : outcome PyVal :=
  match v with
  | PStr s => Return (PStr (s ++ suffix))
  | PList _ =>
      Raise (TypeError
               (py "can only concatenate list (not " ++ [34%N] ++ py "str" ++ [34%N]
                ++ py ") to list"))
  | _ =>
      Raise (TypeError
               (py "unsupported operand type(s) for +: '" ++ type_name_of v
                ++ py "' and 'str'"))
  end.

(** The elements [for x in v] visits: the items of a list, the characters of
    a string, the keys of a dict. *)
Definition py_iter (v : PyVal) : outcome (list PyVal) :=
  match v with
  | PList l => Return l
  | PStr s => Return (map (fun c => PStr [c]) s)
  | PDict d => Return (map (fun kv => PStr (fst kv)) d)
  | _ => Raise (TypeError (py "'" ++ type_name_of v ++ py "' object is not iterable"))
  end.

(** Exceptions without the trace, for the code that does no input or output. *)
Definition obind {A B} (o : outcome A) (k : A -> outcome B) : outcome B :=
  match o with
  | Return a => k a
  | Raise e => Raise e
  end.

Notation "x <-- o ;; k" := (obind o (fun x => k))
  (at level 61, o at next level, right associativity) : py_scope.

(* ================================================================== *)
(** * [adk/agents/sports_events_agent/tools.py] *)
(* ================================================================== *)

Module SportsTools.

(** What the code reads of a [requests.Response]. *)
Record Response : Type := {
  status_code : Z;
  http_error : pystr;        (* the text of the HTTPError for this status *)
  json : outcome PyVal;      (* response.json() *)
  header_date : option pystr (* response.headers.get('date') *)
}.

(** [response.raise_for_status()]: an [HTTPError], which is a
    [RequestException], for a 4xx or 5xx status. *)
Definition raise_for_status (r : Response) : outcome unit :=
  if ((400 <=? status_code r) && (status_code r <? 600))%Z
  then Raise (RequestException (http_error r))
  else Return tt.

Definition api_url : pystr :=
  py "https://www.thesportsdb.com/api/v1/json/962825/searchteams.php".

(** The value of the [description] entry:
    [team.get('strDescriptionEN', '')[:200] + '...'
       if team.get('strDescriptionEN') and len(team.get('strDescriptionEN', '')) > 200
       else team.get('strDescriptionEN', '')] *)
Definition description_of (team : dict) : outcome PyVal :=
  long <-- (if truthy (dict_get_default team (py "strDescriptionEN") PNone)
            then n <-- py_len (dict_get_default team (py "strDescriptionEN") (PStr [])) ;;
                 Return (200 <? n)
            else Return false) ;;
  if long : bool
  then head <-- py_slice_to 200 (dict_get_default team (py "strDescriptionEN") (PStr [])) ;;
       py_add_str head (py "...")
  else Return (dict_get_default team (py "strDescriptionEN") (PStr [])).

(** The dict literal [processed_team]. *)
Definition processed_team (team : dict) : outcome dict :=
  description <-- description_of team ;;
  Return
    [ (py "team_id", dict_get_default team (py "idTeam") PNone);
      (py "team_name", dict_get_default team (py "strTeam") (PStr (py "Unknown")));
      (py "alternate_name", dict_get_default team (py "strAlternate") (PStr []));
      (py "league", dict_get_default team (py "strLeague") (PStr (py "Unknown League")));
      (py "sport", dict_get_default team (py "strSport") (PStr (py "Unknown Sport")));
      (py "founded", dict_get_default team (py "intFormedYear") (PStr []));
      (py "venue", dict_get_default team (py "strStadium") (PStr (py "Unknown Venue")));
      (py "location", dict_get_default team (py "strLocation") (PStr (py "Unknown Location")));
      (py "description", description);
      (py "website", dict_get_default team (py "strWebsite") (PStr []));
      (py "logo", dict_get_default team (py "strTeamBadge") (PStr []));
      (py "jersey", dict_get_default team (py "strTeamJersey") (PStr []));
      (py "country", dict_get_default team (py "strCountry") (PStr (py "Unknown"))) ].

(** The loop [for team in teams_data: if team and isinstance(team, dict): ...
    processed_teams.append(processed_team)], from the list accumulated so
    far. *)
Fixpoint process_teams (teams : list PyVal) (processed_teams : list PyVal)
  : outcome (list PyVal) :=
  match teams with
  | [] => Return processed_teams
  | team :: rest =>
      if truthy team && isinstance_dict team
      then match team with
           | PDict d =>
               p <-- processed_team d ;;
               process_teams rest (processed_teams ++ [PDict p])
           | _ => process_teams rest processed_teams
           end
      else process_teams rest processed_teams
  end.

(** The results the function returns, by the line of their [return]. *)

Definition invalid_input_result (team_name : PyVal) : dict :=
  [ (py "error", PStr (py "Invalid team name provided. Please provide a valid team name string."));
    (py "team_name", team_name);
    (py "validation_failed", PBool true);
    (py "success", PBool false) ].

Definition invalid_format_result (team_name : PyVal) : dict :=
  [ (py "error", PStr (py "Invalid team name format. Use only letters, numbers, spaces and basic punctuation."));
    (py "team_name", team_name);
    (py "validation_failed", PBool true);
    (py "success", PBool false) ].

Definition too_long_result (team_name : PyVal) : dict :=
  [ (py "error", PStr (py "Team name too long. Maximum 50 characters allowed."));
    (py "team_name", team_name);
    (py "validation_failed", PBool true);
    (py "success", PBool false) ].

Definition bad_format_result (team_name_clean : pystr) : dict :=
  [ (py "error", PStr (py "Invalid response format from sports API"));
    (py "team_name", PStr team_name_clean);
    (py "api_error", PBool true);
    (py "success", PBool false) ].

Definition no_teams_result (team_name_clean : pystr) : dict :=
  [ (py "teams", PList []);
    (py "count", PInt 0);
    (py "message",
      PStr (py "No teams found matching '" ++ team_name_clean
            ++ py "'. Try different spelling or a more specific name."));
    (py "search_term", PStr team_name_clean);
    (py "success", PBool true);
    (py "timestamp", PNone) ].

Definition teams_result (processed_teams : list PyVal) (team_name_clean : pystr)
  (date : option pystr) : dict :=
  [ (py "teams", PList processed_teams);
    (py "count", PInt (Z.of_nat (length processed_teams)));
    (py "search_term", PStr team_name_clean);
    (py "api_source", PStr (py "TheSportsDB"));
    (py "success", PBool true);
    (py "timestamp", PStr (match date with Some d => d | None => py "Unknown" end));
    (py "message",
      PStr (py "Found " ++ str_of_nat (length processed_teams)
            ++ py " team(s) matching '" ++ team_name_clean ++ py "'")) ].

Definition timeout_result (team_name : PyVal) : dict :=
  [ (py "error", PStr (py "Request timed out. The sports API is taking too long to respond. Please try again."));
    (py "team_name", team_name);
    (py "timeout_error", PBool true);
    (py "success", PBool false);
    (py "timestamp", PNone) ].

Definition network_error_result (team_name : PyVal) (e : exn) : dict :=
  [ (py "error", PStr (py "Network error occurred while searching for teams. Please check your connection and try again."));
    (py "team_name", team_name);
    (py "network_error", PBool true);
    (py "technical_details", PStr (exn_str e));
    (py "success", PBool false);
    (py "timestamp", PNone) ].

Section Adapter.

(** [requests.get(api_url, params={'t': t}, timeout=10, headers=...)]: the
    answer of the remote end, or the exception the call raises. *)
Variable requests_get : pystr -> pystr -> outcome Response.

(** The builtin [str], used by the f-strings on the argument as it came. *)
Variable builtin_str : PyVal -> pystr.

Definition technical_error_result (team_name : PyVal) (e : exn) : dict :=
  [ (py "error",
      PStr (py "Unable to search for teams matching '" ++ builtin_str team_name
            ++ py "'. Please try a different team name or try again later."));
    (py "team_name", team_name);
    (py "technical_error", PStr (exn_str e));
    (py "success", PBool false);
    (py "timestamp", PNone) ].

(** The body of the [try] block.  The calls to [logger] are left out: they
    write to the log and decide nothing. *)
Definition search_teams_try (team_name : PyVal) : M dict :=
  if negb (truthy team_name) || negb (isinstance_str team_name)
  then ret (invalid_input_result team_name)
  else
    team_name_clean <- lift (py_strip team_name) ;;
    if negb (re_match_team_name team_name_clean)
    then ret (invalid_format_result team_name)
    else if 50 <? length team_name_clean
    then ret (too_long_result team_name)
    else
      emit (HttpGet api_url team_name_clean) ;;;
      response <- lift (requests_get api_url team_name_clean) ;;
      lift (raise_for_status response) ;;;
      data <- lift (json response) ;;
      match data with
      | PDict data =>
          let teams_data := dict_get_default data (py "teams") (PList []) in
          if negb (truthy teams_data) || eq_list_of_None teams_data
          then ret (no_teams_result team_name_clean)
          else
            teams <- lift (py_iter teams_data) ;;
            processed_teams <- lift (process_teams teams []) ;;
            ret (teams_result processed_teams team_name_clean (header_date response))
      | _ => ret (bad_format_result team_name_clean)
      end.

(** The three [except] clauses, tried in order. *)
Definition search_teams_except (team_name : PyVal) (e : exn) : option (M dict) :=
  match e with
  | Timeout _ => Some (ret (timeout_result team_name))
  | _ =>
      if is_RequestException e
      then Some (ret (network_error_result team_name e))
      else if is_Exception e
      then Some (ret (technical_error_result team_name e))
      else None
  end.

Definition search_teams (team_name : PyVal) : M dict :=
  try_except (search_teams_try team_name) (search_teams_except team_name).

End Adapter.

End SportsTools.

(** ** What [requests] makes of the wire *)

Module Requests.
Import SportsTools.

(** What happens to the one GET of [requests.get(..., timeout=10)]; the
    text is the one the library gives its exception. *)
Inductive wire : Type :=
| ConnectTimedOut (msg : pystr)   (* no connection within the time-out *)
| HeadTimedOut (msg : pystr)      (* no response head within the time-out *)
| BodyTimedOut (msg : pystr)      (* the head came, the body stalled *)
| Failed (msg : pystr)            (* refused, unresolved name, TLS *)
| Answered (response : Response).

(** The exception [requests.get] raises, or the response it returns.  A
    time-out before the head is raised as [ConnectTimeout] or [ReadTimeout],
    which are [Timeout]s.  The body is read inside [get] (the call does not
    stream), and a time-out there is re-raised as [ConnectionError], which
    is a [RequestException] and not a [Timeout]. *)
Definition reported (x : wire) : outcome Response :=
  match x with
  | ConnectTimedOut msg => Raise (Timeout msg)
  | HeadTimedOut msg => Raise (Timeout msg)
  | BodyTimedOut msg => Raise (RequestException msg)
  | Failed msg => Raise (RequestException msg)
  | Answered response => Return response
  end.

End Requests.

(* ================================================================== *)
(** * [adk/agents/stock_agent/tools.py] *)
(* ================================================================== *)

Module StockTools.

(** What the code reads of the [DataFrame] that [history] returns: a column
    by its label, [None] when there is no such column. *)
Record DataFrame : Type := {
  column : pystr -> option (list spec_float)
}.

(** What the code reads of a [yf.Ticker] object. *)
Record Ticker : Type := {
  info : outcome dict;                   (* stock.info *)
  history : pystr -> outcome DataFrame   (* stock.history(period=...) *)
}.

(** [str(KeyError(k))] is the [repr] of the key: the label in quotes. *)
Definition KeyError (k : pystr) : exn := OtherException (py "'" ++ k ++ py "'").
Definition IndexError (msg : string) : exn := OtherException (py msg).

(** [float(price_data[label].iloc[-1])] *)
Definition last_of (price_data : DataFrame) (label : pystr) : outcome PyVal :=
  match column price_data label with
  | None => Raise (KeyError label)
  | Some values =>
      match rev values with
      | [] => Raise (IndexError "single positional indexer is out-of-bounds")
      | x :: _ => Return (PFloat x)
      end
  end.

Section Adapter.

(** [yf.Ticker(ticker)]: the object the library builds, or the exception it
    raises. *)
Variable yf_Ticker : PyVal -> outcome Ticker.

(** The body of the [try] block. *)
Definition get_stock_price_try (ticker : PyVal) : M dict :=
  emit (YfTicker ticker) ;;;
  stock <- lift (yf_Ticker ticker) ;;
  emit YfInfo ;;;
  info <- lift (info stock) ;;
  emit (YfHistory (py "1d")) ;;;
  price_data <- lift (history stock (py "1d")) ;;
  current_price <- lift (last_of price_data (py "Close")) ;;
  daily_high <- lift (last_of price_data (py "High")) ;;
  daily_low <- lift (last_of price_data (py "Low")) ;;
  ret [ (py "company_name", dict_get_default info (py "shortName") (PStr (py "Unknown")));
        (py "current_price", current_price);
        (py "daily_high", daily_high);
        (py "daily_low", daily_low);
        (py "currency", dict_get_default info (py "currency") (PStr (py "USD")));
        (py "ticker", ticker) ].

Definition failure_result (ticker : PyVal) (e : exn) : dict :=
  [ (py "error", PStr (py "Failed to retrieve stock information: " ++ exn_str e));
    (py "ticker", ticker) ].

(** [except Exception as e] *)
Definition get_stock_price_except (ticker : PyVal) (e : exn) : option (M dict) :=
  if is_Exception e then Some (ret (failure_result ticker e)) else None.

Definition get_stock_price (ticker : PyVal) : M dict :=
  try_except (get_stock_price_try ticker) (get_stock_price_except ticker).

End Adapter.

End StockTools.

(* ================================================================== *)
(** * [adk/agent_runner.py] *)
(* ================================================================== *)

Module AgentRunner.

(** What the loop of [run_agent] reads of a streamed chunk: [str] of the
    attribute for each attribute the chunk has, and [str(chunk)]. *)
Record Chunk : Type := {
  content : option pystr;
  text : option pystr;
  data : option pystr;
  chunk_str : pystr
}.

Definition nl : pystr := [10%N].

Section Runner.

(** [json.loads] *)
Variable json_loads : pystr -> outcome PyVal.

(** [sports_agent.run_async(message)]: the chunks the stream yields, and the
    exception that ends it if one does. *)
Variable run_async : pystr -> list Chunk * option exn.

(** [traceback.format_exc()] in the handler of an exception. *)
Variable format_exc : exn -> pystr.

(** One turn of the loop body. *)
Definition chunk_text (chunk : Chunk) : pystr :=
  match content chunk with
  | Some s => s
  | None =>
      match text chunk with
      | Some s => s
      | None =>
          match data chunk with
          | Some s => s
          | None => chunk_str chunk
          end
      end
  end.

Definition run_agent_try (user_message : pystr) : M pystr :=
  emit (RunAsync user_message) ;;;
  let (chunks, failure) := run_async user_message in
  let full_response := fold_left (fun acc chunk => acc ++ chunk_text chunk) chunks [] in
  match failure with
  | Some e => raise e
  | None => ret (strip full_response)
  end.

Definition run_agent (user_message : pystr) (user_context : PyVal) : M pystr :=
  try_except (run_agent_try user_message)
    (fun e =>
       if is_Exception e
       then Some (raise (OtherException
                    (py "Agent execution error: " ++ exn_str e ++ nl ++ format_exc e)))
       else None).

Definition sys_exit {A} (code : Z) : M A := raise (SystemExit code).

Definition usage_text : pystr :=
  py "AGENT_ERROR_START" ++ nl
  ++ py "Usage: python agent_runner.py <message> [context_json]" ++ nl
  ++ py "AGENT_ERROR_END".

Definition invalid_json_text (e : exn) : pystr :=
  py "AGENT_ERROR_START" ++ nl
  ++ py "Invalid context JSON: " ++ exn_str e ++ nl
  ++ py "AGENT_ERROR_END".

(** [main()], given [sys.argv].  The module reaches it only when the import
    of the agent at its top succeeded. *)
Definition main (argv : list pystr) : M unit :=
  try_except
    (if length argv <? 2
     then emit (Print usage_text) ;;; sys_exit 1
     else
       let user_message := nth 1 argv [] in
       user_context <-
         (if 2 <? length argv
          then try_except (lift (json_loads (nth 2 argv [])))
                 (fun e =>
                    match e with
                    | JSONDecodeError _ =>
                        Some (emit (Print (invalid_json_text e)) ;;; sys_exit 1)
                    | _ => None
                    end)
          else ret (PDict [])) ;;
       response <- run_agent user_message user_context ;;
       emit (Print (py "AGENT_RESPONSE_START")) ;;;
       emit (Print response) ;;;
       emit (Print (py "AGENT_RESPONSE_END")))
    (fun e =>
       if is_Exception e
       then Some (emit (Print (py "AGENT_ERROR_START")) ;;;
                  emit (Print (py "Error: " ++ exn_str e)) ;;;
                  emit (Print (py "AGENT_ERROR_END")) ;;;
                  sys_exit 1)
       else None).

End Runner.

(** The text on standard output: [print] ends each text with a newline. *)
Fixpoint stdout (w : trace) : pystr :=
  match w with
  | [] => []
  | Print s :: w' => s ++ nl ++ stdout w'
  | _ :: w' => stdout w'
  end.

(** How often the agent runtime was entered. *)
Definition runtime_calls (w : trace) : nat :=
  List.length (filter (fun ev => match ev with RunAsync _ => true | _ => false end) w).

(** The exit status of the process that ran [asyncio.run(main())]. *)
Definition exit_status (o : outcome unit) : Z :=
  match o with
  | Return _ => 0
  | Raise (SystemExit code) => code
  | Raise KeyboardInterrupt => 130
  | Raise _ => 1
  end.

End AgentRunner.

(* ================================================================== *)
(** * [adk/test_simple_tool.py] *)
(* ================================================================== *)

Module SimpleToolTest.

(** What the loop of [test] reads of the objects the runtime streams.  An
    attribute that [hasattr] does not find is [None] of the option type. *)

(** [part.function_call]: when the part has the attribute, [str] of
    [part.function_call.name], or the exception that reading it raises (the
    attribute holds [None]). *)
Record Part : Type := {
  function_call : option (outcome pystr)
}.

(** [content.parts]: when the content has the attribute, the parts that
    iterating it gives, or the exception that iterating it raises. *)
Record Content : Type := {
  parts : option (outcome (list Part))
}.

(** [type(chunk).__name__], and [chunk.content] when the chunk has the
    attribute and it is truthy. *)
Record Chunk : Type := {
  type_name : pystr;
  content : option Content
}.

(** What the script does to the outside world. *)
Inductive test_event : Type :=
| TPrint (text : pystr)      (* print(text) *)
| StdinSet (text : pystr)    (* sys.stdin = StringIO(text) *)
| StdinRestored              (* sys.stdin = original_stdin *)
| TRunAsync.                 (* test_agent.run_async(context) *)

(** How a block of the loop is left. *)
Inductive control : Type :=
| Continue               (* to the next statement *)
| Break
| ReturnTrue
| Raised (e : exn).

Definition tool_call_found (name : pystr) : pystr :=
  py "   " ++ [127919%N] ++ py " TOOL CALL FOUND: " ++ name.

Definition chunk_line (chunk_count : nat) (chunk : Chunk) : pystr :=
  [128230%N] ++ py " Chunk " ++ str_of_nat chunk_count ++ py ": " ++ type_name chunk.

(** [for i, part in enumerate(chunk.content.parts): ...] *)
Fixpoint for_parts (ps : list Part) : control * list test_event :=
  match ps with
  | [] => (Continue, [])
  | part :: rest =>
      match function_call part with
      | Some (Return name) => (ReturnTrue, [TPrint (tool_call_found name)])
      | Some (Raise e) => (Raised e, [])
      | None => for_parts rest
      end
  end.

(** The body of the [async for], with [chunk_count] already incremented. *)
Definition loop_body (chunk_count : nat) (chunk : Chunk) : control * list test_event :=
  if 10 <? chunk_count
  then (Break, [TPrint (chunk_line chunk_count chunk)])
  else
    match content chunk with
    | Some c =>
        match parts c with
        | Some (Return ps) =>
            let (ctl, evs) := for_parts ps in
            (ctl, TPrint (chunk_line chunk_count chunk) :: evs)
        | Some (Raise e) => (Raised e, [TPrint (chunk_line chunk_count chunk)])
        | None => (Continue, [TPrint (chunk_line chunk_count chunk)])
        end
    | None => (Continue, [TPrint (chunk_line chunk_count chunk)])
    end.

(** [async for chunk in ...] over the chunks the stream yields; [failure] is
    the exception that ends the stream, if one does. *)
Fixpoint for_chunks (chunks : list Chunk) (failure : option exn) (chunk_count : nat)
  : control * list test_event :=
  match chunks with
  | [] =>
      match failure with
      | Some e => (Raised e, [])
      | None => (Continue, [])
      end
  | chunk :: rest =>
      let chunk_count := S chunk_count in
      let (ctl, evs) := loop_body chunk_count chunk in
      match ctl with
      | Continue =>
          let (ctl', evs') := for_chunks rest failure chunk_count in
          (ctl', evs ++ evs')
      | _ => (ctl, evs)
      end
  end.

Section Test.

(** The imports at the head of [test]: the exception they raise, if any. *)
Variable imports : option exn.

(** [InvocationContext(...)] and the calls in its arguments: the exception
    they raise, if any. *)
Variable make_context : option exn.

(** [test_agent.run_async(context)]: the chunks of the stream and the
    exception that ends it, if one does. *)
Variable run_async : list Chunk * option exn.

(** [except Exception as e] *)
Definition test_except (e : exn) : outcome bool * list test_event :=
  if is_Exception e
  then (Return false, [TPrint ([10060%N] ++ py " Error: " ++ exn_str e)])
  else (Raise e, []).

(** [test()] *)
Definition test : outcome bool * list test_event :=
  match imports with
  | Some e => test_except e
  | None =>
      let started := [TPrint ([129514%N] ++ py " Testing minimal tool calling...")] in
      match make_context with
      | Some e => let (r, evs) := test_except e in (r, started ++ evs)
      | None =>
          let (chunks, failure) := run_async in
          let (ctl, looped) := for_chunks chunks failure 0 in
          let evs :=
            started
            ++ [StdinSet (py "Arsenal" ++ [10%N]);
                TPrint ([128640%N] ++ py " Testing with 'Arsenal'...");
                TRunAsync]
            ++ looped ++ [StdinRestored] in
          match ctl with
          | ReturnTrue => (Return true, evs)
          | Raised e => let (r, evs') := test_except e in (r, evs ++ evs')
          | Continue | Break =>
              (Return false, evs ++ [TPrint ([10060%N] ++ py " No tool calls detected")])
          end
      end
  end.

End Test.

End SimpleToolTest.


(* ================================================================== *)
(** * The vocabulary of the specification *)
(* ================================================================== *)

(** The predicates in which the properties are stated; they follow the
    words of the specification, not the code. *)
Module Spec.

(** A result of the validation step: no success, the validation marker, and
    a text for the user. *)
Definition validation_failure (d : dict) : Prop :=
  dict_get d (py "success") = Some (PBool false)
  /\ dict_get d (py "validation_failed") = Some (PBool true)
  /\ exists msg, msg <> [] /\ dict_get d (py "error") = Some (PStr msg).

(** The input passes the validation step: its stripped form is non-empty,
    over the allow-list, and of at most fifty characters. *)
Definition accepted (s : pystr) : bool :=
  re_match_team_name (strip s) && (length (strip s) <=? 50).

(** The envelope of a result: [success] is a boolean; with [True] comes the
    [teams] payload and no [error], with [False] an [error] and no payload. *)
Definition envelope (d : dict) : Prop :=
  (dict_get d (py "success") = Some (PBool true)
   /\ has_key d (py "teams") = true /\ has_key d (py "error") = false)
  \/ (dict_get d (py "success") = Some (PBool false)
      /\ has_key d (py "error") = true /\ has_key d (py "teams") = false).

(** No element of the list is a record the loop keeps: each is null, another
    falsy value, or not a dict. *)
Definition no_record (teams : list PyVal) : bool :=
  forallb (fun team => negb (truthy team && isinstance_dict team)) teams.

(** The remote record-to-result table, read from the specification: the
    field of the remote record, the field of the result, and the default. *)
Definition default_table : list (pystr * pystr * PyVal) :=
  [ (py "idTeam", py "team_id", PNone);
    (py "strTeam", py "team_name", PStr (py "Unknown"));
    (py "strAlternate", py "alternate_name", PStr []);
    (py "strLeague", py "league", PStr (py "Unknown League"));
    (py "strSport", py "sport", PStr (py "Unknown Sport"));
    (py "intFormedYear", py "founded", PStr []);
    (py "strStadium", py "venue", PStr (py "Unknown Venue"));
    (py "strLocation", py "location", PStr (py "Unknown Location"));
    (py "strDescriptionEN", py "description", PStr []);
    (py "strWebsite", py "website", PStr []);
    (py "strTeamBadge", py "logo", PStr []);
    (py "strTeamJersey", py "jersey", PStr []);
    (py "strCountry", py "country", PStr (py "Unknown")) ].

(** A well-formed remote record: a non-empty object whose description, when
    it has one, is a string or null. *)
Definition well_formed_record (team : dict) : bool :=
  match team with
  | [] => false
  | _ =>
      match dict_get team (py "strDescriptionEN") with
      | None | Some PNone | Some (PStr _) => true
      | Some _ => false
      end
  end.

(** The price fields are there exactly when the [error] field is not. *)
Definition payload_xor_error (d : dict) : Prop :=
  (has_key d (py "current_price") = true /\ has_key d (py "error") = false)
  \/ (has_key d (py "error") = true /\ has_key d (py "current_price") = false).

(** Empty, or not a string. *)
Definition empty_or_not_str (v : PyVal) : bool :=
  match v with
  | PStr (_ :: _) => false
  | _ => true
  end.

(** An item of the remote list that the loop turns into a record: a
    non-empty object. *)
Definition kept_record (team : PyVal) : bool :=
  truthy team && isinstance_dict team.

(** The fields of a record of the result, in their order. *)
Definition output_fields : list pystr :=
  [ py "team_id"; py "team_name"; py "alternate_name"; py "league"; py "sport";
    py "founded"; py "venue"; py "location"; py "description"; py "website";
    py "logo"; py "jersey"; py "country" ].

(** A record of the result: an object with exactly the fields above. *)
Definition record_shape (p : PyVal) : Prop :=
  exists d, p = PDict d /\ map fst d = output_fields.

(** A number or a boolean: a value without a length. *)
Definition is_number (v : PyVal) : bool :=
  match v with
  | PBool _ | PInt _ | PFloat _ => true
  | _ => false
  end.

(** The markers by which a failure tells its kind. *)
Definition error_markers : list pystr :=
  [ py "validation_failed"; py "api_error"; py "timeout_error";
    py "network_error"; py "technical_error" ].

(** The markers a result carries. *)
Definition markers_of (d : dict) : list pystr :=
  filter (has_key d) error_markers.

(** The events of the test script that touch [sys.stdin]. *)
Definition is_stdin (ev : SimpleToolTest.test_event) : bool :=
  match ev with
  | SimpleToolTest.StdinSet _ | SimpleToolTest.StdinRestored => true
  | _ => false
  end.

(** The outbound call timed out, at whatever stage. *)
Definition timed_out (x : Requests.wire) : bool :=
  match x with
  | Requests.ConnectTimedOut _ | Requests.HeadTimedOut _ | Requests.BodyTimedOut _ => true
  | _ => false
  end.

(** *** Valid JSON: the grammar of RFC 8259 *)

(** [ws]: space, tab, line feed, carriage return. *)
Definition json_ws (c : N) : bool :=
  ((c =? 32) || (c =? 9) || (c =? 10) || (c =? 13))%N.

Fixpoint skip_ws (s : pystr) : pystr :=
  match s with
  | c :: r => if json_ws c then skip_ws r else s
  | [] => []
  end.

Definition json_digit (c : N) : bool := ((48 <=? c) && (c <=? 57))%N.

Definition json_hex (c : N) : bool :=
  (json_digit c || (97 <=? c) && (c <=? 102) || (65 <=? c) && (c <=? 70))%N.

Fixpoint skip_digits (s : pystr) : pystr :=
  match s with
  | c :: r => if json_digit c then skip_digits r else s
  | [] => []
  end.

(** One or more digits. *)
Definition json_digits (s : pystr) : option pystr :=
  match s with
  | c :: r => if json_digit c then Some (skip_digits r) else None
  | [] => None
  end.

(** [int]: a zero, or a digit from 1 to 9 and more digits. *)
Definition json_int (s : pystr) : option pystr :=
  match s with
  | c :: r =>
      if (c =? 48)%N then Some r
      else if json_digit c then Some (skip_digits r)
      else None
  | [] => None
  end.

(** [number = [ minus ] int [ frac ] [ exp ]]: what follows the longest
    number at the head of [s]. *)
Definition json_number (s : pystr) : option pystr :=
  let unsigned :=
    match s with
    | c :: r => if (c =? 45)%N then r else s
    | [] => s
    end in
  match json_int unsigned with
  | None => None
  | Some after_int =>
      let after_frac :=
        match after_int with
        | c :: r =>
            if (c =? 46)%N
            then match json_digits r with Some r' => r' | None => after_int end
            else after_int
        | [] => after_int
        end in
      Some
        match after_frac with
        | c :: r =>
            if ((c =? 101) || (c =? 69))%N
            then
              let digits :=
                match r with
                | sign :: r' => if ((sign =? 43) || (sign =? 45))%N then r' else r
                | [] => r
                end in
              match json_digits digits with Some r' => r' | None => after_frac end
            else after_frac
        | [] => after_frac
        end
  end.

(** The characters of a [string] after its opening quotation mark, up to
    and with the closing one: what follows the string. *)
Fixpoint json_string_body (s : pystr) : option pystr :=
  match s with
  | [] => None
  | c :: r =>
      if (c =? 34)%N then Some r
      else if (c =? 92)%N
      then
        match r with
        | [] => None
        | e :: r2 =>
            if ((e =? 34) || (e =? 92) || (e =? 47) || (e =? 98) || (e =? 102)
                || (e =? 110) || (e =? 114) || (e =? 116))%N
            then json_string_body r2
            else if (e =? 117)%N
            then
              match r2 with
              | h1 :: h2 :: h3 :: h4 :: r3 =>
                  if json_hex h1 && json_hex h2 && json_hex h3 && json_hex h4
                  then json_string_body r3
                  else None
              | _ => None
              end
            else None
        end
      else if (c <? 32)%N then None
      else json_string_body r
  end.

(** [json_value s r]: a [value] stands at the head of [s] and [r] follows
    it; [json_elements] and [json_members] are what stands between the
    brackets and the braces, with the closing one. *)
Inductive json_value : pystr -> pystr -> Prop :=
| V_null s r : s = py "null" ++ r -> json_value s r
| V_true s r : s = py "true" ++ r -> json_value s r
| V_false s r : s = py "false" ++ r -> json_value s r
| V_number s r : json_number s = Some r -> json_value s r
| V_string s r : json_string_body s = Some r -> json_value (34%N :: s) r
| V_empty_array s r : skip_ws s = 93%N :: r -> json_value (91%N :: s) r
| V_array s r : json_elements (skip_ws s) r -> json_value (91%N :: s) r
| V_empty_object s r : skip_ws s = 125%N :: r -> json_value (123%N :: s) r
| V_object s r : json_members (skip_ws s) r -> json_value (123%N :: s) r
with json_elements : pystr -> pystr -> Prop :=
| E_last s r1 r :
    json_value s r1 -> skip_ws r1 = 93%N :: r -> json_elements s r
| E_more s r1 r2 r :
    json_value s r1 -> skip_ws r1 = 44%N :: r2 ->
    json_elements (skip_ws r2) r -> json_elements s r
with json_members : pystr -> pystr -> Prop :=
| M_last s r0 r1 r2 r :
    json_string_body s = Some r0 -> skip_ws r0 = 58%N :: r1 ->
    json_value (skip_ws r1) r2 -> skip_ws r2 = 125%N :: r ->
    json_members (34%N :: s) r
| M_more s r0 r1 r2 r3 r :
    json_string_body s = Some r0 -> skip_ws r0 = 58%N :: r1 ->
    json_value (skip_ws r1) r2 -> skip_ws r2 = 44%N :: r3 ->
    json_members (skip_ws r3) r ->
    json_members (34%N :: s) r.

(** [JSON-text = ws value ws] *)
Definition rfc8259_valid (s : pystr) : Prop :=
  exists r, json_value (skip_ws s) r /\ skip_ws r = [].

End Spec.
(* ================================================================== *)
(** * Scenarios *)
(* ================================================================== *)

(** Concrete answers of the outside world, on which the theorems below are
    instantiated. *)
Module Scenario.

Import SportsTools.

Definition arsenal : dict :=
  [ (py "idTeam", PStr (py "133604"));
    (py "strTeam", PStr (py "Arsenal"));
    (py "strLeague", PStr (py "English Premier League"));
    (py "strStadium", PNone);
    (py "strDescriptionEN", PStr (repeat 65%N 201)) ].

(** A record with only its identifier. *)
Definition bare : dict := [ (py "idTeam", PStr (py "1")) ].

Definition ok_response (body : PyVal) : Response :=
  {| status_code := 200; http_error := [];
     json := Return body;
     header_date := Some (py "Wed, 04 Nov 2026 12:00:00 GMT") |}.

(** The remote end: one team for [Arsenal], a list of nulls for [Nulls],
    a time-out for [Slow], no match for anything else. *)
Definition remote (url t : pystr) : outcome Response :=
  if pystr_eqb t (py "Arsenal")
  then Return (ok_response (PDict [ (py "teams", PList [PDict arsenal]) ]))
  else if pystr_eqb t (py "Nulls")
  then Return (ok_response (PDict [ (py "teams", PList [PNone; PNone]) ]))
  else if pystr_eqb t (py "Null")
  then Return (ok_response (PDict [ (py "teams", PList [PNone]) ]))
  else if pystr_eqb t (py "Slow")
  then Raise (Timeout (py "Read timed out. (read timeout=10)"))
  else Return (ok_response (PDict [ (py "teams", PNone) ])).

(** [str] on the values of the scenarios: a string is its own text. *)
Definition str0 (v : PyVal) : pystr :=
  match v with
  | PStr s => s
  | _ => py "None"
  end.

(** [Arsenal] followed by fifty spaces. *)
Definition padded : pystr := py "Arsenal" ++ repeat 32%N 50.

(** A library that refuses the empty ticker and has one day of prices for
    the others. *)
Definition yf (ticker : PyVal) : outcome StockTools.Ticker :=
  match ticker with
  | PStr [] => Raise (OtherException (py "Empty ticker name"))
  | _ =>
      Return {| StockTools.info := Return [ (py "shortName", PStr (py "Apple Inc.")) ];
                StockTools.history := fun _ =>
                  Return {| StockTools.column := fun _ =>
                              Some [S754_finite false 5 0] |} |}
  end.

(** A parser that accepts the empty object only. *)
Definition loads (s : pystr) : outcome PyVal :=
  if pystr_eqb s (py "{}") then Return (PDict [])
  else Raise (JSONDecodeError (py "Expecting value: line 1 column 1 (char 0)")).

(** A runtime that streams two chunks. *)
Definition runtime (message : pystr) : list AgentRunner.Chunk * option exn :=
  ([ {| AgentRunner.content := Some (py "Hel"); AgentRunner.text := None;
        AgentRunner.data := None; AgentRunner.chunk_str := [] |};
     {| AgentRunner.content := None; AgentRunner.text := Some (py "lo");
        AgentRunner.data := None; AgentRunner.chunk_str := [] |} ], None).

Definition no_traceback (e : exn) : pystr := [].

End Scenario.


(** More answers of the outside world. *)
Module Scenario2.

Import SportsTools.

Definition unavailable : Response :=
  {| status_code := 503;
     http_error := py "503 Server Error: Service Unavailable";
     json := Return PNone;
     header_date := None |}.

Definition garbled : Response :=
  {| status_code := 200; http_error := [];
     json := Raise (JSONDecodeError (py "Expecting value: line 1 column 1 (char 0)"));
     header_date := None |}.

(** A record whose description is a number. *)
Definition numbered : dict :=
  [ (py "idTeam", PStr (py "2")); (py "strDescriptionEN", PInt 5) ].

(** The remote end of [Scenario], with a failure or an odd body for some
    names. *)
Definition remote (url t : pystr) : outcome Response :=
  if pystr_eqb t (py "Down") then Return unavailable
  else if pystr_eqb t (py "Offline")
  then Raise (RequestException (py "Connection refused"))
  else if pystr_eqb t (py "Listy") then Return (Scenario.ok_response (PList []))
  else if pystr_eqb t (py "Garbled") then Return garbled
  else if pystr_eqb t (py "Numbered")
  then Return (Scenario.ok_response
                 (PDict [ (py "teams", PList [PDict Scenario.arsenal; PDict numbered]) ]))
  else if pystr_eqb t (py "Texty")
  then Return (Scenario.ok_response (PDict [ (py "teams", PStr (py "none")) ]))
  else if pystr_eqb t (py "Mixed")
  then Return (Scenario.ok_response
                 (PDict [ (py "teams",
                            PList [PNone; PDict Scenario.arsenal; PStr (py "x");
                                   PDict Scenario.bare; PDict []]) ]))
  else Scenario.remote url t.

(** A library with an empty history for every symbol. *)
Definition yf_empty (ticker : PyVal) : outcome StockTools.Ticker :=
  Return {| StockTools.info := Return [];
            StockTools.history := fun _ =>
              Return {| StockTools.column := fun _ => Some [] |} |}.

(** A library with two days of prices. *)
Definition two_days : StockTools.DataFrame :=
  {| StockTools.column := fun label =>
       if pystr_eqb label (py "Close")
       then Some [S754_finite false 3 0; S754_finite false 5 0]
       else if pystr_eqb label (py "High")
       then Some [S754_finite false 4 0; S754_finite false 7 0]
       else if pystr_eqb label (py "Low")
       then Some [S754_finite false 1 0; S754_finite false 2 0]
       else None |}.

Definition stock_two_days : StockTools.Ticker :=
  {| StockTools.info := Return [ (py "shortName", PStr (py "Apple Inc.")) ];
     StockTools.history := fun _ => Return two_days |}.

Definition yf_two_days (ticker : PyVal) : outcome StockTools.Ticker :=
  Return stock_two_days.

(** A runtime whose stream yields one chunk and then fails. *)
Definition failing_runtime (message : pystr) : list AgentRunner.Chunk * option exn :=
  ([ {| AgentRunner.content := Some (py "Hel"); AgentRunner.text := None;
        AgentRunner.data := None; AgentRunner.chunk_str := [] |} ],
   Some (OtherException (py "model unavailable"))).

(** A parser that runs out of stack. *)
Definition deep_loads (s : pystr) : outcome PyVal :=
  Raise (OtherException (py "maximum recursion depth exceeded")).

(** [json.loads] on the constant it accepts beyond the grammar, and a
    JSONDecodeError for anything else but the empty object. *)
Definition loads_nan (s : pystr) : outcome PyVal :=
  if pystr_eqb s (py "NaN") then Return (PFloat S754_nan) else Scenario.loads s.

(** The body of the answer stalls after its head. *)
Definition stalled : Requests.wire :=
  Requests.BodyTimedOut
    (py "HTTPSConnectionPool(host='www.thesportsdb.com', port=443): Read timed out.").

(** The objects of the test script: a part whose [function_call] holds
    [None], a part with a call of [simple_search], a part without the
    attribute. *)
Definition text_part : SimpleToolTest.Part :=
  {| SimpleToolTest.function_call :=
       Some (Raise (OtherException (py "'NoneType' object has no attribute 'name'"))) |}.

Definition call_part : SimpleToolTest.Part :=
  {| SimpleToolTest.function_call := Some (Return (py "simple_search")) |}.

Definition bare_part : SimpleToolTest.Part :=
  {| SimpleToolTest.function_call := None |}.

Definition event_with (ps : list SimpleToolTest.Part) : SimpleToolTest.Chunk :=
  {| SimpleToolTest.type_name := py "Event";
     SimpleToolTest.content := Some {| SimpleToolTest.parts := Some (Return ps) |} |}.

Definition empty_event : SimpleToolTest.Chunk :=
  {| SimpleToolTest.type_name := py "Event"; SimpleToolTest.content := None |}.

End Scenario2.
(* ================================================================== *)
(** * Properties *)
(* ================================================================== *)

Unset Implicit Arguments.

(** Case analysis on the innermost scrutinee that blocks evaluation, in the
    goal or in a hypothesis, until none is left. *)
Ltac case_innermost :=
  cbv beta iota;
  repeat match goal with
         | |- context [match ?x with _ => _ end] =>
             lazymatch x with
             | context [match _ with _ => _ end] => fail
             | _ => destruct x; cbv beta iota
             end
         end.

Ltac case_innermost_in H :=
  cbv beta iota in H;
  repeat match type of H with
         | context [match ?x with _ => _ end] =>
             lazymatch x with
             | context [match _ with _ => _ end] => fail
             | _ => destruct x; cbv beta iota in H
             end
         end.

(** ** Strings and dictionaries *)

Lemma pystr_eqb_eq (a b : pystr) : pystr_eqb a b = true <-> a = b.
Proof.
  revert b. induction a as [|x a IH]; intros [|y b]; cbn; split; try congruence.
  - intros H. apply andb_true_iff in H as [Hx Hab].
    apply N.eqb_eq in Hx. apply IH in Hab. congruence.
  - intros H. injection H as -> ->.
    apply andb_true_iff. split; [apply N.eqb_refl | now apply IH].
Qed.

Lemma isspace_team_name_char (c : N) :
  isspace c = true -> team_name_char c = true.
Proof.
  intros H. unfold team_name_char. rewrite H.
  now rewrite orb_true_r.
Qed.

Lemma lstrip_In (c : N) (s : pystr) :
  In c s -> isspace c = false -> In c (lstrip s).
Proof.
  induction s as [|x s IH]; cbn; [tauto|].
  intros [-> | Hin] Hc.
  - rewrite Hc. now left.
  - destruct (isspace x); [now apply IH | now right].
Qed.

Lemma strip_In (c : N) (s : pystr) :
  In c s -> isspace c = false -> In c (strip s).
Proof.
  intros Hin Hc. unfold strip, rstrip.
  rewrite <- in_rev. apply lstrip_In; [|exact Hc].
  rewrite <- in_rev. now apply lstrip_In.
Qed.

(** A character outside the class survives [strip]: only white space is
    stripped, and white space is in the class. *)
Lemma strip_keeps_bad_char (s : pystr) :
  forallb team_name_char s = false -> forallb team_name_char (strip s) = false.
Proof.
  intros H.
  destruct (forallb team_name_char (strip s)) eqn:E; [|reflexivity].
  rewrite forallb_forall in E.
  assert (Hall : forall c, In c s -> team_name_char c = true).
  { intros c Hin. destruct (isspace c) eqn:Hc.
    - now apply isspace_team_name_char.
    - apply E. now apply strip_In. }
  apply forallb_forall in Hall. congruence.
Qed.

Lemma re_match_false_of_bad_char (s : pystr) :
  forallb team_name_char s = false -> re_match_team_name s = false.
Proof. destruct s; [discriminate | intros H; exact H]. Qed.

(** ** [search_teams] *)

Module SportsProps.
Import SportsTools Spec.

Lemma invalid_input_is_validation_failure v :
  validation_failure (invalid_input_result v).
Proof.
  repeat split. eexists. split; [|reflexivity]. discriminate.
Qed.

Lemma invalid_format_is_validation_failure v :
  validation_failure (invalid_format_result v).
Proof.
  repeat split. eexists. split; [|reflexivity]. discriminate.
Qed.

Lemma too_long_is_validation_failure v :
  validation_failure (too_long_result v).
Proof.
  repeat split. eexists. split; [|reflexivity]. discriminate.
Qed.

(** The code between the request and the [return] raises nothing but the
    type errors of the language. *)

Lemma py_iter_raises v e :
  py_iter v = Raise e -> exists m, e = OtherException m.
Proof.
  destruct v; cbn; intros H; try discriminate; injection H as <-;
    eexists; reflexivity.
Qed.

Lemma description_of_raises team e :
  description_of team = Raise e -> exists m, e = OtherException m.
Proof.
  unfold description_of.
  destruct (truthy (dict_get_default team (py "strDescriptionEN") PNone)); cbn [obind].
  - destruct (dict_get_default team (py "strDescriptionEN") (PStr [])) as [| | | |s|l|d];
      cbn [py_len obind];
      try (intros H; injection H as <-; eexists; reflexivity).
    + destruct (200 <? length s); cbn; intros H; discriminate.
    + destruct (200 <? length l); cbn; intros H;
        [injection H as <-; eexists; reflexivity | discriminate].
    + destruct (200 <? length d); cbn; intros H;
        [injection H as <-; eexists; reflexivity | discriminate].
  - discriminate.
Qed.

Lemma processed_team_raises team e :
  processed_team team = Raise e -> exists m, e = OtherException m.
Proof.
  unfold processed_team.
  destruct (description_of team) eqn:Hd; cbn [obind]; [discriminate|].
  intros H. injection H as <-. eapply description_of_raises. exact Hd.
Qed.

Lemma process_teams_raises teams acc e :
  process_teams teams acc = Raise e -> exists m, e = OtherException m.
Proof.
  revert acc. induction teams as [|team rest IH]; intros acc; cbn [process_teams].
  - discriminate.
  - destruct (truthy team && isinstance_dict team); [|apply IH].
    destruct team; try apply IH.
    destruct (processed_team d) eqn:Hp; cbn [obind]; [apply IH|].
    intros H. injection H as <-. eapply processed_team_raises. exact Hp.
Qed.

Section Adapter.

Variable requests_get : pystr -> pystr -> outcome Response.
Variable builtin_str : PyVal -> pystr.

Lemma search_teams_rejects_format (s : pystr) (w : trace) :
  s <> [] -> re_match_team_name (strip s) = false ->
  search_teams requests_get builtin_str (PStr s) w
  = (Return (invalid_format_result (PStr s)), w).
Proof.
  intros Hs Hre. destruct s as [|c s]; [congruence|].
  unfold search_teams, try_except, search_teams_try, bind, lift, ret.
  cbn [truthy isinstance_str negb orb py_strip].
  now rewrite Hre.
Qed.

Lemma search_teams_rejects_length (s : pystr) (w : trace) :
  re_match_team_name (strip s) = true -> 50 < length (strip s) ->
  search_teams requests_get builtin_str (PStr s) w
  = (Return (too_long_result (PStr s)), w).
Proof.
  intros Hre Hlen. destruct s as [|c s]; [discriminate|].
  unfold search_teams, try_except, search_teams_try, bind, lift, ret.
  cbn [truthy isinstance_str negb orb py_strip].
  rewrite Hre. cbn [negb].
  apply Nat.ltb_lt in Hlen. now rewrite Hlen.
Qed.


Lemma accepted_inv (s : pystr) :
  accepted s = true ->
  s <> [] /\ re_match_team_name (strip s) = true /\ (50 <? length (strip s)) = false.
Proof.
  unfold accepted. intros H. apply andb_true_iff in H as [Hre Hlen].
  apply Nat.leb_le in Hlen. repeat split; trivial.
  - intros ->. discriminate.
  - apply Nat.ltb_ge. exact Hlen.
Qed.

(** An accepted input reaches the remote end, once. *)
Lemma search_teams_try_accepted (s : pystr) (w : trace) :
  accepted s = true ->
  search_teams_try requests_get (PStr s) w
  = (response <- lift (requests_get api_url (strip s)) ;;
     lift (raise_for_status response) ;;;
     data <- lift (json response) ;;
     match data with
     | PDict data =>
         let teams_data := dict_get_default data (py "teams") (PList []) in
         if negb (truthy teams_data) || eq_list_of_None teams_data
         then ret (no_teams_result (strip s))
         else
           teams <- lift (py_iter teams_data) ;;
           processed_teams <- lift (process_teams teams []) ;;
           ret (teams_result processed_teams (strip s) (header_date response))
     | _ => ret (bad_format_result (strip s))
     end) (w ++ [HttpGet api_url (strip s)]).
Proof.
  intros H. apply accepted_inv in H as (Hs & Hre & Hlen).
  destruct s as [|c s]; [congruence|].
  unfold search_teams_try. cbn [truthy isinstance_str negb orb].
  unfold bind at 1. unfold lift at 1. cbn [py_strip].
  rewrite Hre, Hlen. cbn [negb].
  reflexivity.
Qed.

(** The remote end answered with a JSON object: what remains is the
    classification of its [teams] entry. *)
Lemma search_teams_on_object (s : pystr) (w : trace) (response : Response) (data : dict) :
  accepted s = true ->
  requests_get api_url (strip s) = Return response ->
  raise_for_status response = Return tt ->
  json response = Return (PDict data) ->
  search_teams requests_get builtin_str (PStr s) w
  = (let teams_data := dict_get_default data (py "teams") (PList []) in
     if negb (truthy teams_data) || eq_list_of_None teams_data
     then Return (no_teams_result (strip s))
     else
       match (teams <-- py_iter teams_data ;;
              processed_teams <-- process_teams teams [] ;;
              Return (teams_result processed_teams (strip s) (header_date response)))
       with
       | Return d => Return d
       | Raise e => Return (technical_error_result builtin_str (PStr s) e)
       end,
     w ++ [HttpGet api_url (strip s)]).
Proof.
  intros Hacc Hget Hstatus Hjson.
  unfold search_teams, try_except.
  rewrite search_teams_try_accepted by exact Hacc.
  unfold bind, lift, ret. rewrite Hget, Hstatus, Hjson.
  cbv zeta.
  set (teams_data := dict_get_default data (py "teams") (PList [])).
  destruct (negb (truthy teams_data) || eq_list_of_None teams_data);
    [reflexivity|].
  destruct (py_iter teams_data) as [teams|e] eqn:Hiter; cbn [obind].
  - destruct (process_teams teams []) as [ps|e] eqn:Hps; cbn [obind];
      [reflexivity|].
    apply process_teams_raises in Hps as [m ->]. reflexivity.
  - apply py_iter_raises in Hiter as [m ->]. reflexivity.
Qed.


(** [search_teams] is its [try] block followed by the [except] clauses. *)
Lemma search_teams_unfold (team_name : PyVal) (w : trace) :
  search_teams requests_get builtin_str team_name w
  = match search_teams_try requests_get team_name w with
    | (Return d, w') => (Return d, w')
    | (Raise e, w') =>
        match search_teams_except builtin_str team_name e with
        | Some h => h w'
        | None => (Raise e, w')
        end
    end.
Proof. reflexivity. Qed.

(** Every exception that derives from [Exception] meets a clause. *)
Lemma search_teams_except_catches (team_name : PyVal) (e : exn) :
  is_Exception e = true ->
  exists d, search_teams_except builtin_str team_name e = Some (ret d)
            /\ dict_get d (py "success") = Some (PBool false)
            /\ has_key d (py "error") = true
            /\ has_key d (py "teams") = false.
Proof.
  destruct e; cbn; try discriminate; intros _; eexists; split;
    try reflexivity; repeat split.
Qed.

(** The results of the [try] block, by the [return] that produced them. *)
Lemma search_teams_try_returns (team_name : PyVal) (w w' : trace) (d : dict) :
  search_teams_try requests_get team_name w = (Return d, w') ->
  d = invalid_input_result team_name
  \/ d = invalid_format_result team_name
  \/ d = too_long_result team_name
  \/ (exists clean, d = bad_format_result clean)
  \/ (exists clean, d = no_teams_result clean)
  \/ (exists processed clean date, d = teams_result processed clean date).
Proof.
  unfold search_teams_try, bind, lift, emit, ret. cbv zeta. intros H.
  case_innermost_in H;
    try discriminate; injection H as <- <-; eauto 12.
Qed.

(** The results of the [except] clauses. *)
Lemma search_teams_except_returns (team_name : PyVal) (e : exn) (h : M dict)
  (w w' : trace) (d : dict) :
  search_teams_except builtin_str team_name e = Some h ->
  h w = (Return d, w') ->
  d = timeout_result team_name
  \/ d = network_error_result team_name e
  \/ d = technical_error_result builtin_str team_name e.
Proof.
  destruct e; cbn; intros H; try discriminate; injection H as <-;
    unfold ret; intros H; injection H as <- <-; auto.
Qed.

Lemma search_teams_envelope (team_name : PyVal) (w w' : trace) (d : dict) :
  search_teams requests_get builtin_str team_name w = (Return d, w') ->
  envelope d.
Proof.
  rewrite search_teams_unfold.
  destruct (search_teams_try requests_get team_name w) as [[d0|e] w0] eqn:Htry.
  - intros H. injection H as <- <-.
    apply search_teams_try_returns in Htry
      as [-> | [-> | [-> | [[c ->] | [[c ->] | (ps & c & date & ->)]]]]];
      first [ left; repeat split; reflexivity | right; repeat split; reflexivity ].
  - destruct (search_teams_except builtin_str team_name e) as [h|] eqn:Hh;
      [|discriminate].
    intros H. eapply search_teams_except_returns in H; [|exact Hh].
    destruct H as [-> | [-> | ->]]; right; repeat split.
Qed.

(** The records the loop makes are the [teams] of the result. *)
Lemma search_teams_found (s : pystr) (w : trace) (response : Response)
  (data : dict) (team : PyVal) (rest processed : list PyVal) :
  accepted s = true ->
  requests_get api_url (strip s) = Return response ->
  raise_for_status response = Return tt ->
  json response = Return (PDict data) ->
  dict_get data (py "teams") = Some (PList (team :: rest)) ->
  team :: rest <> [PNone] ->
  process_teams (team :: rest) [] = Return processed ->
  search_teams requests_get builtin_str (PStr s) w
  = (Return (teams_result processed (strip s) (header_date response)),
     w ++ [HttpGet api_url (strip s)]).
Proof.
  intros Hacc Hget Hstatus Hjson Hteams Hne Hps.
  rewrite (search_teams_on_object s w response data Hacc Hget Hstatus Hjson).
  unfold dict_get_default. rewrite Hteams. cbv zeta.
  assert (Hcond : negb (truthy (PList (team :: rest)))
                  || eq_list_of_None (PList (team :: rest)) = false).
  { cbn. destruct team; try reflexivity. destruct rest; [congruence | reflexivity]. }
  rewrite Hcond. cbn [py_iter obind]. rewrite Hps. reflexivity.
Qed.

(** An exception leaves [search_teams] only if it does not derive from
    [Exception]. *)
Lemma search_teams_raises_only_base (team_name : PyVal) (w w' : trace) (e : exn) :
  search_teams requests_get builtin_str team_name w = (Raise e, w') ->
  is_Exception e = false.
Proof.
  rewrite search_teams_unfold.
  destruct (search_teams_try requests_get team_name w) as [[d0|e0] w0];
    [discriminate|].
  destruct e0; cbn; unfold ret; intros H; try discriminate;
    injection H as <- <-; reflexivity.
Qed.

Lemma search_teams_catches (team_name : PyVal) (w w' : trace) (e : exn) :
  search_teams_try requests_get team_name w = (Raise e, w') ->
  is_Exception e = true ->
  exists d, search_teams requests_get builtin_str team_name w = (Return d, w')
            /\ dict_get d (py "success") = Some (PBool false)
            /\ has_key d (py "error") = true
            /\ has_key d (py "teams") = false.
Proof.
  intros Htry He. rewrite search_teams_unfold, Htry.
  destruct (@search_teams_except_catches team_name e He) as (d & -> & Hd).
  exists d. split; [reflexivity | exact Hd].
Qed.

(** An empty or non-string argument stops at the first test. *)
Lemma search_teams_rejects_input (v : PyVal) (w : trace) :
  negb (truthy v) || negb (isinstance_str v) = true ->
  search_teams requests_get builtin_str v w = (Return (invalid_input_result v), w).
Proof.
  intros H. unfold search_teams, try_except, search_teams_try.
  rewrite H. reflexivity.
Qed.

(** C1, as amended.  A string with a character outside the allow-list, or
    whose stripped form is longer than 50 characters, is rejected: the result
    has [success = False], the [validation_failed] marker and a non-empty
    error text, and the trace is unchanged, so no request went out. *)
Theorem search_teams_validation_rejects (s : pystr) (w : trace) :
  forallb team_name_char s = false \/ 50 < length (strip s) ->
  exists d,
    search_teams requests_get builtin_str (PStr s) w = (Return d, w)
    /\ validation_failure d.
Proof.
  intros H.
  destruct (re_match_team_name (strip s)) eqn:Hre.
  - destruct H as [Hbad | Hlen].
    + apply strip_keeps_bad_char, re_match_false_of_bad_char in Hbad. congruence.
    + exists (too_long_result (PStr s)). split.
      * now apply search_teams_rejects_length.
      * apply too_long_is_validation_failure.
  - exists (invalid_format_result (PStr s)). split.
    + apply search_teams_rejects_format; [|exact Hre].
      destruct H as [Hbad | Hlen]; intros ->; [discriminate | cbn in Hlen; lia].
    + apply invalid_format_is_validation_failure.
Qed.

(** C6.  When the remote search succeeds and matches nothing (the [teams]
    entry is absent, null, an empty list, or the list of one null), the
    result is a success with an empty [teams] list, [count] 0 and a non-empty
    message. *)
Theorem search_teams_no_match (s : pystr) (w : trace) (response : Response)
  (data : dict) :
  accepted s = true ->
  requests_get api_url (strip s) = Return response ->
  raise_for_status response = Return tt ->
  json response = Return (PDict data) ->
  dict_get data (py "teams") = None
  \/ dict_get data (py "teams") = Some PNone
  \/ dict_get data (py "teams") = Some (PList [])
  \/ dict_get data (py "teams") = Some (PList [PNone]) ->
  exists d msg,
    search_teams requests_get builtin_str (PStr s) w
    = (Return d, w ++ [HttpGet api_url (strip s)])
    /\ dict_get d (py "success") = Some (PBool true)
    /\ dict_get d (py "teams") = Some (PList [])
    /\ dict_get d (py "count") = Some (PInt 0)
    /\ dict_get d (py "message") = Some (PStr msg) /\ msg <> []
    /\ has_key d (py "error") = false.
Proof.
  intros Hacc Hget Hstatus Hjson Hteams.
  exists (no_teams_result (strip s)). eexists.
  split; [|repeat split; discriminate].
  rewrite (search_teams_on_object s w response data Hacc Hget Hstatus Hjson).
  unfold dict_get_default.
  destruct Hteams as [-> | [-> | [-> | ->]]]; reflexivity.
Qed.

(** C7, as amended.  When the request of an accepted input raises
    [requests.exceptions.Timeout], the function returns (it does not raise)
    the result with [success = False] and the [timeout_error] marker. *)
Theorem search_teams_timeout (s : pystr) (w : trace) (m : pystr) :
  accepted s = true ->
  requests_get api_url (strip s) = Raise (Timeout m) ->
  exists d,
    search_teams requests_get builtin_str (PStr s) w
    = (Return d, w ++ [HttpGet api_url (strip s)])
    /\ dict_get d (py "success") = Some (PBool false)
    /\ dict_get d (py "timeout_error") = Some (PBool true)
    /\ has_key d (py "error") = true.
Proof.
  intros Hacc Hget. exists (timeout_result (PStr s)).
  split; [|repeat split].
  unfold search_teams, try_except.
  rewrite search_teams_try_accepted by exact Hacc.
  unfold bind, lift. rewrite Hget. reflexivity.
Qed.

Lemma process_teams_no_record (teams acc : list PyVal) :
  no_record teams = true -> process_teams teams acc = Return acc.
Proof.
  induction teams as [|team rest IH]; cbn [no_record forallb process_teams];
    [reflexivity|].
  intros H. apply andb_true_iff in H as [Ht Hrest].
  apply negb_true_iff in Ht. rewrite Ht. now apply IH.
Qed.

(** C10.  A [teams] entry that is the list of one null gives the very result
    of an absent entry; a list none of whose elements is a non-empty dict
    gives a success whose [teams] list is empty, with [count] 0.  In both
    cases the function returns, and no record is made up from a null. *)
Theorem search_teams_null_records (s : pystr) (w : trace) (response : Response)
  (data : dict) (teams : list PyVal) :
  accepted s = true ->
  requests_get api_url (strip s) = Return response ->
  raise_for_status response = Return tt ->
  json response = Return (PDict data) ->
  dict_get data (py "teams") = Some (PList teams) ->
  no_record teams = true ->
  (teams = [PNone] ->
   search_teams requests_get builtin_str (PStr s) w
   = (Return (no_teams_result (strip s)), w ++ [HttpGet api_url (strip s)]))
  /\ exists d,
       search_teams requests_get builtin_str (PStr s) w
       = (Return d, w ++ [HttpGet api_url (strip s)])
       /\ dict_get d (py "success") = Some (PBool true)
       /\ dict_get d (py "teams") = Some (PList [])
       /\ dict_get d (py "count") = Some (PInt 0)
       /\ has_key d (py "error") = false.
Proof.
  intros Hacc Hget Hstatus Hjson Hteams Hnone.
  rewrite (search_teams_on_object s w response data Hacc Hget Hstatus Hjson).
  unfold dict_get_default. rewrite Hteams. cbv zeta.
  split.
  - intros ->. reflexivity.
  - destruct (negb (truthy (PList teams)) || eq_list_of_None (PList teams)).
    + exists (no_teams_result (strip s)). repeat split.
    + cbn [py_iter obind]. rewrite process_teams_no_record by exact Hnone.
      cbn [obind]. eexists. split; [reflexivity|]. repeat split.
Qed.

End Adapter.

Lemma description_of_str (team : dict) (desc : pystr) :
  dict_get team (py "strDescriptionEN") = Some (PStr desc) ->
  description_of team
  = Return (PStr (if 200 <? length desc then firstn 200 desc ++ py "..." else desc)).
Proof.
  intros H. unfold description_of, dict_get_default. rewrite H.
  destruct desc as [|c desc]; [reflexivity|].
  cbn [truthy py_len obind].
  destruct (200 <? length (c :: desc)); reflexivity.
Qed.

Lemma description_of_absent (team : dict) :
  dict_get team (py "strDescriptionEN") = None ->
  description_of team = Return (PStr []).
Proof.
  intros H. unfold description_of, dict_get_default. now rewrite H.
Qed.

Lemma description_of_null (team : dict) :
  dict_get team (py "strDescriptionEN") = Some PNone ->
  description_of team = Return PNone.
Proof.
  intros H. unfold description_of, dict_get_default. now rewrite H.
Qed.

Lemma well_formed_description (team : dict) :
  well_formed_record team = true ->
  exists description, description_of team = Return description
    /\ (dict_get team (py "strDescriptionEN") = None -> description = PStr []).
Proof.
  unfold well_formed_record. destruct team as [|kv team]; [discriminate|].
  destruct (dict_get (kv :: team) (py "strDescriptionEN")) as [[| | | |desc| |]|] eqn:H;
    try discriminate; intros _.
  - rewrite (@description_of_null _ H). eexists. split; [reflexivity | discriminate].
  - rewrite (@description_of_str _ _ H). eexists. split; [reflexivity | discriminate].
  - rewrite (@description_of_absent _ H). eexists. split; reflexivity.
Qed.

(** C4.  A description longer than 200 characters is normalized to its first
    200 characters followed by ["..."]; one of 200 characters or fewer is
    passed through unchanged. *)
Theorem description_truncated (team : dict) (desc : pystr) :
  dict_get team (py "strDescriptionEN") = Some (PStr desc) ->
  exists p,
    processed_team team = Return p
    /\ process_teams [PDict team] [] = Return [PDict p]
    /\ (200 < length desc ->
        dict_get p (py "description") = Some (PStr (firstn 200 desc ++ py "...")))
    /\ (length desc <= 200 ->
        dict_get p (py "description") = Some (PStr desc)).
Proof.
  intros H. unfold processed_team. cbn [process_teams].
  assert (Hne : truthy (PDict team) && isinstance_dict (PDict team) = true).
  { destruct team; [discriminate | reflexivity]. }
  rewrite Hne. unfold processed_team.
  rewrite (@description_of_str _ _ H). cbn [obind app].
  eexists. split; [reflexivity|]. split; [reflexivity|].
  split; intros Hlen.
  - apply Nat.ltb_lt in Hlen. rewrite Hlen. reflexivity.
  - apply Nat.ltb_ge in Hlen. rewrite Hlen. reflexivity.
Qed.

(** C5.  In a well-formed record, every field of the table that is missing
    comes out as the default of the table. *)
Theorem missing_fields_get_defaults (team : dict) :
  well_formed_record team = true ->
  exists p,
    processed_team team = Return p
    /\ process_teams [PDict team] [] = Return [PDict p]
    /\ forall remote field default,
         In (remote, field, default) default_table ->
         dict_get team remote = None ->
         dict_get p field = Some default.
Proof.
  intros Hwf.
  destruct (@well_formed_description team Hwf) as (description & Hd & Habsent).
  cbn [process_teams].
  assert (Hne : truthy (PDict team) && isinstance_dict (PDict team) = true).
  { destruct team; [discriminate | reflexivity]. }
  rewrite Hne. unfold processed_team. rewrite Hd. cbn [obind app].
  eexists. split; [reflexivity|]. split; [reflexivity|].
  intros remote field default Hin Hmiss.
  unfold default_table in Hin. cbn [In] in Hin.
  repeat (destruct Hin as [Hin | Hin];
          [injection Hin as <- <- <-;
           try (cbv [dict_get_default]; rewrite Hmiss);
           try rewrite (Habsent Hmiss);
           reflexivity |]).
  contradiction.
Qed.

(** C1, as stated, fails: [Arsenal] followed by fifty spaces is longer than
    50 characters, and the request goes out. *)
Lemma padded_name_is_searched :
  ~ (forall (requests_get : pystr -> pystr -> outcome Response)
            (builtin_str : PyVal -> pystr) (s : pystr) (w : trace),
        forallb team_name_char s = false \/ 50 < length s ->
        exists d,
          search_teams requests_get builtin_str (PStr s) w = (Return d, w)
          /\ validation_failure d).
Proof.
  intros H.
  destruct (H Scenario.remote Scenario.str0 Scenario.padded []) as (d & Heq & _).
  - right. apply Nat.ltb_lt. reflexivity.
  - vm_compute in Heq. discriminate Heq.
Qed.

(** C7, as stated, fails: when the body of the answer stalls the call has
    timed out, [requests] raises a [ConnectionError], and the result is the
    network error, without the [timeout_error] marker. *)
Lemma stalled_body_is_network_error :
  ~ (forall (x : Requests.wire) (builtin_str : PyVal -> pystr) (s : pystr)
            (w : trace),
        accepted s = true -> timed_out x = true ->
        exists d w',
          search_teams (fun _ _ => Requests.reported x) builtin_str (PStr s) w
          = (Return d, w')
          /\ dict_get d (py "success") = Some (PBool false)
          /\ dict_get d (py "timeout_error") = Some (PBool true)).
Proof.
  intros H.
  destruct (H Scenario2.stalled Scenario.str0 (py "Arsenal") [] eq_refl eq_refl)
    as (d & w' & Heq & _ & Htimeout).
  vm_compute in Heq. injection Heq as <- <-.
  vm_compute in Htimeout. discriminate Htimeout.
Qed.

End SportsProps.

(** ** [get_stock_price] *)

Module StockProps.
Import StockTools Spec.

Section Adapter.

Variable yf_Ticker : PyVal -> outcome Ticker.

(** The function hands its argument to the library before anything else. *)
Lemma get_stock_price_calls_library (ticker : PyVal) (w : trace) :
  exists o w',
    get_stock_price yf_Ticker ticker w = (o, w ++ YfTicker ticker :: w').
Proof.
  unfold get_stock_price, try_except, get_stock_price_try,
    get_stock_price_except, bind, lift, emit, ret.
  case_innermost;
    eexists; eexists; rewrite <- ?app_assoc; cbn [app]; reflexivity.
Qed.

(** No result has a [success] field or a validation marker; each has either
    the prices or an [error]. *)
Lemma get_stock_price_returns (ticker : PyVal) (w w' : trace) (d : dict) :
  get_stock_price yf_Ticker ticker w = (Return d, w') ->
  dict_get d (py "success") = None
  /\ dict_get d (py "validation_failed") = None
  /\ payload_xor_error d.
Proof.
  unfold get_stock_price, try_except, get_stock_price_try,
    get_stock_price_except, bind, lift, emit, ret.
  intros H. case_innermost_in H;
    try discriminate; injection H as <- <-;
    (split; [reflexivity | split; [reflexivity|]]);
    first [ left; split; reflexivity | right; split; reflexivity ].
Qed.

Lemma get_stock_price_unfold (ticker : PyVal) (w : trace) :
  get_stock_price yf_Ticker ticker w
  = match get_stock_price_try yf_Ticker ticker w with
    | (Return d, w') => (Return d, w')
    | (Raise e, w') =>
        if is_Exception e then (Return (failure_result ticker e), w')
        else (Raise e, w')
    end.
Proof.
  unfold get_stock_price, try_except, get_stock_price_except.
  destruct (get_stock_price_try yf_Ticker ticker w) as [[d|e] w']; [reflexivity|].
  destruct (is_Exception e); reflexivity.
Qed.

Lemma get_stock_price_raises_only_base (ticker : PyVal) (w w' : trace) (e : exn) :
  get_stock_price yf_Ticker ticker w = (Raise e, w') ->
  is_Exception e = false.
Proof.
  rewrite get_stock_price_unfold.
  destruct (get_stock_price_try yf_Ticker ticker w) as [[d|e0] w0]; [discriminate|].
  destruct (is_Exception e0) eqn:He; [discriminate|].
  intros H. injection H as <- <-. exact He.
Qed.

End Adapter.
End StockProps.

(** ** The adapters together *)

Module AdapterProps.
Import SportsTools StockTools Spec SportsProps StockProps.

Section Adapters.

Variable requests_get : pystr -> pystr -> outcome Response.
Variable builtin_str : PyVal -> pystr.
Variable yf_Ticker : PyVal -> outcome Ticker.

(** C2, as amended.  [search_teams] answers an empty or non-string argument
    with a validation failure and leaves the trace as it was: no request.
    [get_stock_price] has no validation step: it passes the same argument to
    the library, and what it returns has neither a [success] field nor a
    validation marker. *)
Theorem validation_before_network (v : PyVal) (w : trace) :
  empty_or_not_str v = true ->
  (exists d,
     search_teams requests_get builtin_str v w = (Return d, w)
     /\ validation_failure d)
  /\ (exists o w',
        get_stock_price yf_Ticker v w = (o, w ++ YfTicker v :: w')
        /\ forall d, o = Return d ->
             dict_get d (py "success") = None
             /\ dict_get d (py "validation_failed") = None).
Proof.
  intros Hv. split.
  - exists (invalid_input_result v). split.
    + apply search_teams_rejects_input.
      destruct v as [| | | |[|c s]| |]; cbn in Hv |- *;
        try discriminate Hv; try reflexivity; apply orb_true_r.
    + apply invalid_input_is_validation_failure.
  - destruct (get_stock_price_calls_library yf_Ticker v w) as (o & w' & Heq).
    exists o, w'. split; [exact Heq|].
    intros d ->. apply get_stock_price_returns in Heq. tauto.
Qed.

(** C3, as amended.  Every result of [search_teams] has a boolean [success]
    field; with [True] it has the [teams] payload and no [error], with
    [False] an [error] and no payload.  Every result of [get_stock_price] has
    either the prices or an [error], never both, and no [success] field. *)
Theorem results_envelope :
  (forall team_name w d w',
      search_teams requests_get builtin_str team_name w = (Return d, w') ->
      envelope d)
  /\ (forall ticker w d w',
        get_stock_price yf_Ticker ticker w = (Return d, w') ->
        payload_xor_error d /\ dict_get d (py "success") = None).
Proof.
  split.
  - intros team_name w d w' H. eapply search_teams_envelope. exact H.
  - intros ticker w d w' H. apply get_stock_price_returns in H. tauto.
Qed.

(** C8, as amended.  An exception that derives from [Exception] and arises
    in the [try] block of an adapter is caught there and turned into a
    returned dict: by [search_teams] into one with [success = False] and an
    [error], by [get_stock_price] into the dict of [error] and [ticker],
    which has no [success] field.  No exception deriving from [Exception]
    leaves either adapter. *)
Theorem adapters_catch_exceptions :
  (forall team_name w e w',
      search_teams_try requests_get team_name w = (Raise e, w') ->
      is_Exception e = true ->
      exists d,
        search_teams requests_get builtin_str team_name w = (Return d, w')
        /\ dict_get d (py "success") = Some (PBool false)
        /\ has_key d (py "error") = true)
  /\ (forall ticker w e w',
        get_stock_price_try yf_Ticker ticker w = (Raise e, w') ->
        is_Exception e = true ->
        get_stock_price yf_Ticker ticker w
        = (Return [ (py "error",
                      PStr (py "Failed to retrieve stock information: " ++ exn_str e));
                    (py "ticker", ticker) ], w'))
  /\ (forall team_name w e w',
        search_teams requests_get builtin_str team_name w = (Raise e, w') ->
        is_Exception e = false)
  /\ (forall ticker w e w',
        get_stock_price yf_Ticker ticker w = (Raise e, w') ->
        is_Exception e = false).
Proof.
  repeat split.
  - intros team_name w e w' Htry He.
    destruct (@search_teams_catches requests_get builtin_str team_name w w' e Htry He)
      as (d & Heq & Hs & Herr & _).
    exists d. auto.
  - intros ticker w e w' Htry He.
    rewrite get_stock_price_unfold, Htry, He. reflexivity.
  - intros team_name w e w' H. eapply search_teams_raises_only_base. exact H.
  - intros ticker w e w' H. eapply get_stock_price_raises_only_base. exact H.
Qed.

End Adapters.

(** C2, as stated, fails on the empty ticker: [get_stock_price] calls the
    library, and its result has no [success] field. *)
Lemma empty_ticker_not_validated :
  ~ (forall (yf_Ticker : PyVal -> outcome Ticker) (v : PyVal) (w : trace),
        empty_or_not_str v = true ->
        exists d,
          get_stock_price yf_Ticker v w = (Return d, w)
          /\ dict_get d (py "success") = Some (PBool false)).
Proof.
  intros H.
  destruct (H Scenario.yf (PStr []) [] eq_refl) as (d & Heq & _).
  vm_compute in Heq. discriminate Heq.
Qed.

(** C3, as stated, fails: a result of [get_stock_price] has no [success]
    field, on success and on failure. *)
Lemma stock_result_without_success :
  ~ (forall (yf_Ticker : PyVal -> outcome Ticker) (ticker : PyVal) (w w' : trace)
            (d : dict),
        get_stock_price yf_Ticker ticker w = (Return d, w') ->
        exists b, dict_get d (py "success") = Some (PBool b)).
Proof.
  intros H.
  destruct (H Scenario.yf (PStr (py "AAPL")) [] _ _ eq_refl) as (b & Hb).
  vm_compute in Hb. discriminate Hb.
Qed.

(** C8, as stated, fails: the dict that [get_stock_price] makes of an
    exception is not the [success = False] shape. *)
Lemma stock_failure_without_success :
  ~ (forall (yf_Ticker : PyVal -> outcome Ticker) (ticker : PyVal) (w w' : trace)
            (e : exn),
        get_stock_price_try yf_Ticker ticker w = (Raise e, w') ->
        exists d,
          get_stock_price yf_Ticker ticker w = (Return d, w')
          /\ dict_get d (py "success") = Some (PBool false)).
Proof.
  intros H.
  destruct (H Scenario.yf (PStr []) [] _ _ eq_refl) as (d & Heq & Hs).
  vm_compute in Heq. injection Heq as <-.
  vm_compute in Hs. discriminate Hs.
Qed.

End AdapterProps.

(** ** [agent_runner.main] *)

Module RunnerProps.
Import AgentRunner.

Lemma runtime_calls_print (w : trace) (s : pystr) :
  runtime_calls (w ++ [Print s]) = runtime_calls w.
Proof.
  unfold runtime_calls. rewrite filter_app, length_app. cbn. lia.
Qed.

Lemma stdout_app (w1 w2 : trace) : stdout (w1 ++ w2) = stdout w1 ++ stdout w2.
Proof.
  induction w1 as [|ev w1 IH]; cbn [app stdout]; [reflexivity|].
  destruct ev; rewrite IH; rewrite <- ?app_assoc; reflexivity.
Qed.

Section Runner.

Variable json_loads : pystr -> outcome PyVal.
Variable run_async : pystr -> list Chunk * option exn.
Variable format_exc : exn -> pystr.

(** C9, as amended.  When [json.loads] raises a [JSONDecodeError] on the
    second positional argument, [main] prints the invalid-JSON text between
    [AGENT_ERROR_START] and [AGENT_ERROR_END], exits with status 1, and the
    agent runtime is not entered. *)
Theorem main_rejects_invalid_json (argv : list pystr) (w : trace) (m : pystr) :
  2 < length argv ->
  json_loads (nth 2 argv []) = Raise (JSONDecodeError m) ->
  main json_loads run_async format_exc argv w
  = (Raise (SystemExit 1),
     w ++ [Print (py "AGENT_ERROR_START" ++ nl
                  ++ py "Invalid context JSON: " ++ m ++ nl
                  ++ py "AGENT_ERROR_END")])
  /\ stdout (snd (main json_loads run_async format_exc argv w))
     = stdout w ++ py "AGENT_ERROR_START" ++ nl
       ++ py "Invalid context JSON: " ++ m ++ nl
       ++ py "AGENT_ERROR_END" ++ nl
  /\ exit_status (fst (main json_loads run_async format_exc argv w)) = 1%Z
  /\ runtime_calls (snd (main json_loads run_async format_exc argv w))
     = runtime_calls w.
Proof.
  intros Hlen Hjson.
  assert (Hmain : main json_loads run_async format_exc argv w
                  = (Raise (SystemExit 1),
                     w ++ [Print (py "AGENT_ERROR_START" ++ nl
                                  ++ py "Invalid context JSON: " ++ m ++ nl
                                  ++ py "AGENT_ERROR_END")])).
  { unfold main, try_except, bind, lift, emit, sys_exit, raise.
    assert (H1 : (length argv <? 2) = false) by (apply Nat.ltb_ge; lia).
    assert (H2 : (2 <? length argv) = true) by (apply Nat.ltb_lt; lia).
    rewrite H1, H2, Hjson. reflexivity. }
  rewrite Hmain. cbn [fst snd exit_status].
  split; [reflexivity|]. split; [|split; [reflexivity|]].
  - rewrite stdout_app. cbn [stdout]. rewrite app_nil_r.
    rewrite <- !app_assoc. reflexivity.
  - apply runtime_calls_print.
Qed.

End Runner.

(** Case analysis on a derivation of the grammar, each case settled by
    evaluation. *)
Ltac no_json_value H :=
  inversion H; subst;
  repeat match goal with
         | E : _ = _ |- _ => vm_compute in E; try discriminate E; clear E
         end.

(** [NaN] is no value of the grammar. *)
Lemma nan_is_not_json : ~ Spec.rfc8259_valid (py "NaN").
Proof.
  intros (r & Hvalue & _). vm_compute in Hvalue. no_json_value Hvalue.
Qed.

(** C9, as stated, fails: [NaN] is not valid JSON and [json.loads] accepts
    it, so [main] goes on, enters the runtime and exits with status 0. *)
Lemma nan_context_runs_agent :
  ~ (forall (json_loads : pystr -> outcome PyVal)
            (run_async : pystr -> list Chunk * option exn)
            (format_exc : exn -> pystr) (argv : list pystr) (w : trace),
        json_loads (py "NaN") = Return (PFloat S754_nan) ->
        2 < length argv ->
        ~ Spec.rfc8259_valid (nth 2 argv []) ->
        exit_status (fst (main json_loads run_async format_exc argv w)) <> 0%Z
        /\ runtime_calls (snd (main json_loads run_async format_exc argv w))
           = runtime_calls w).
Proof.
  intros H.
  destruct (H Scenario2.loads_nan Scenario.runtime Scenario.no_traceback
              [py "agent_runner.py"; py "hi"; py "NaN"] [] eq_refl)
    as (Hexit & _).
  - cbn. lia.
  - exact nan_is_not_json.
  - apply Hexit. vm_compute. reflexivity.
Qed.

End RunnerProps.

(** ** The theorems on the scenarios *)

Module Witness.
Import SportsTools StockTools AgentRunner Spec.
Import SportsProps StockProps AdapterProps RunnerProps.

(** [Ars;] has a character outside the allow-list. *)
Lemma search_teams_validation_rejects_witness :
  (forallb team_name_char (py "Ars;") = false \/ 50 < length (strip (py "Ars;")))
  /\ exists d,
       search_teams Scenario.remote Scenario.str0 (PStr (py "Ars;")) [] = (Return d, [])
       /\ validation_failure d.
Proof.
  split; [left; reflexivity|].
  apply (search_teams_validation_rejects Scenario.remote Scenario.str0 (py "Ars;") []).
  left. reflexivity.
Defined.

(** The empty string, for both adapters. *)
Lemma validation_before_network_witness :
  empty_or_not_str (PStr []) = true
  /\ (exists d,
        search_teams Scenario.remote Scenario.str0 (PStr []) [] = (Return d, [])
        /\ validation_failure d)
  /\ (exists o w',
        get_stock_price Scenario.yf (PStr []) [] = (o, [] ++ YfTicker (PStr []) :: w')
        /\ forall d, o = Return d ->
             dict_get d (py "success") = None
             /\ dict_get d (py "validation_failed") = None).
Proof.
  split; [reflexivity|].
  apply (validation_before_network Scenario.remote Scenario.str0 Scenario.yf (PStr []) []).
  reflexivity.
Defined.

(** The search for [Arsenal] returns an envelope. *)
Lemma results_envelope_witness :
  exists d w',
    search_teams Scenario.remote Scenario.str0 (PStr (py "Arsenal")) [] = (Return d, w')
    /\ envelope d.
Proof.
  eexists. eexists. split; [vm_compute; reflexivity|].
  eapply (proj1 (results_envelope Scenario.remote Scenario.str0 Scenario.yf)
            (PStr (py "Arsenal")) []).
  vm_compute. reflexivity.
Defined.

(** The description of the [arsenal] record has 201 characters. *)
Lemma description_truncated_witness :
  dict_get Scenario.arsenal (py "strDescriptionEN") = Some (PStr (repeat 65%N 201))
  /\ exists p,
       processed_team Scenario.arsenal = Return p
       /\ process_teams [PDict Scenario.arsenal] [] = Return [PDict p]
       /\ (200 < length (repeat 65%N 201) ->
           dict_get p (py "description")
           = Some (PStr (firstn 200 (repeat 65%N 201) ++ py "...")))
       /\ (length (repeat 65%N 201) <= 200 ->
           dict_get p (py "description") = Some (PStr (repeat 65%N 201))).
Proof.
  split; [reflexivity|].
  apply (description_truncated Scenario.arsenal (repeat 65%N 201)).
  reflexivity.
Defined.

(** The [bare] record has its identifier and nothing else. *)
Lemma missing_fields_get_defaults_witness :
  well_formed_record Scenario.bare = true
  /\ exists p,
       processed_team Scenario.bare = Return p
       /\ process_teams [PDict Scenario.bare] [] = Return [PDict p]
       /\ forall remote field default,
            In (remote, field, default) default_table ->
            dict_get Scenario.bare remote = None ->
            dict_get p field = Some default.
Proof.
  split; [reflexivity|].
  apply (missing_fields_get_defaults Scenario.bare). reflexivity.
Defined.

(** No team is called [Nowhere FC]: the remote end answers with a null. *)
Lemma search_teams_no_match_witness :
  (accepted (py "Nowhere FC") = true
   /\ Scenario.remote api_url (strip (py "Nowhere FC"))
      = Return (Scenario.ok_response (PDict [ (py "teams", PNone) ]))
   /\ raise_for_status (Scenario.ok_response (PDict [ (py "teams", PNone) ])) = Return tt
   /\ json (Scenario.ok_response (PDict [ (py "teams", PNone) ]))
      = Return (PDict [ (py "teams", PNone) ])
   /\ dict_get [ (py "teams", PNone) ] (py "teams") = Some PNone)
  /\ exists d msg,
       search_teams Scenario.remote Scenario.str0 (PStr (py "Nowhere FC")) []
       = (Return d, [] ++ [HttpGet api_url (strip (py "Nowhere FC"))])
       /\ dict_get d (py "success") = Some (PBool true)
       /\ dict_get d (py "teams") = Some (PList [])
       /\ dict_get d (py "count") = Some (PInt 0)
       /\ dict_get d (py "message") = Some (PStr msg) /\ msg <> []
       /\ has_key d (py "error") = false.
Proof.
  split; [repeat split; reflexivity|].
  apply (search_teams_no_match Scenario.remote Scenario.str0 (py "Nowhere FC") []
           (Scenario.ok_response (PDict [ (py "teams", PNone) ]))
           [ (py "teams", PNone) ]);
    try reflexivity.
  right. left. reflexivity.
Defined.

(** The request for [Slow] times out. *)
Lemma search_teams_timeout_witness :
  (accepted (py "Slow") = true
   /\ Scenario.remote api_url (strip (py "Slow"))
      = Raise (Timeout (py "Read timed out. (read timeout=10)")))
  /\ exists d,
       search_teams Scenario.remote Scenario.str0 (PStr (py "Slow")) []
       = (Return d, [] ++ [HttpGet api_url (strip (py "Slow"))])
       /\ dict_get d (py "success") = Some (PBool false)
       /\ dict_get d (py "timeout_error") = Some (PBool true)
       /\ has_key d (py "error") = true.
Proof.
  split; [split; reflexivity|].
  apply (search_teams_timeout Scenario.remote Scenario.str0 (py "Slow") []
           (py "Read timed out. (read timeout=10)"));
    reflexivity.
Defined.

(** The time-out of [Slow] is an exception of the [try] block, and the
    library's refusal of the empty ticker is one too. *)
Lemma adapters_catch_exceptions_witness :
  (search_teams_try Scenario.remote (PStr (py "Slow")) []
   = (Raise (Timeout (py "Read timed out. (read timeout=10)")),
      [HttpGet api_url (py "Slow")])
   /\ is_Exception (Timeout (py "Read timed out. (read timeout=10)")) = true)
  /\ (exists d,
        search_teams Scenario.remote Scenario.str0 (PStr (py "Slow")) []
        = (Return d, [HttpGet api_url (py "Slow")])
        /\ dict_get d (py "success") = Some (PBool false)
        /\ has_key d (py "error") = true)
  /\ get_stock_price Scenario.yf (PStr []) []
     = (Return [ (py "error",
                   PStr (py "Failed to retrieve stock information: "
                         ++ exn_str (OtherException (py "Empty ticker name"))));
                 (py "ticker", PStr []) ], [YfTicker (PStr [])]).
Proof.
  split; [split; reflexivity|]. split.
  - apply (proj1 (adapters_catch_exceptions Scenario.remote Scenario.str0 Scenario.yf)
             (PStr (py "Slow")) [] (Timeout (py "Read timed out. (read timeout=10)"))
             [HttpGet api_url (py "Slow")]);
      reflexivity.
  - apply (proj1 (proj2 (adapters_catch_exceptions Scenario.remote Scenario.str0
                           Scenario.yf))
             (PStr []) [] (OtherException (py "Empty ticker name"))
             [YfTicker (PStr [])]);
      reflexivity.
Defined.

(** [agent_runner.py hi not-json] *)
Lemma main_rejects_invalid_json_witness :
  (2 < length [py "agent_runner.py"; py "hi"; py "not-json"]
   /\ Scenario.loads (nth 2 [py "agent_runner.py"; py "hi"; py "not-json"] [])
      = Raise (JSONDecodeError (py "Expecting value: line 1 column 1 (char 0)")))
  /\ exit_status
       (fst (main Scenario.loads Scenario.runtime Scenario.no_traceback
               [py "agent_runner.py"; py "hi"; py "not-json"] [])) = 1%Z
  /\ runtime_calls
       (snd (main Scenario.loads Scenario.runtime Scenario.no_traceback
               [py "agent_runner.py"; py "hi"; py "not-json"] [])) = runtime_calls [].
Proof.
  split; [split; [cbn; lia | reflexivity]|].
  apply (main_rejects_invalid_json Scenario.loads Scenario.runtime Scenario.no_traceback
           [py "agent_runner.py"; py "hi"; py "not-json"] []
           (py "Expecting value: line 1 column 1 (char 0)")).
  - cbn. lia.
  - reflexivity.
Defined.

(** The remote end answers [Nulls] with a list of two nulls. *)
Lemma search_teams_null_records_witness :
  (accepted (py "Nulls") = true
   /\ Scenario.remote api_url (strip (py "Nulls"))
      = Return (Scenario.ok_response (PDict [ (py "teams", PList [PNone; PNone]) ]))
   /\ no_record [PNone; PNone] = true)
  /\ exists d,
       search_teams Scenario.remote Scenario.str0 (PStr (py "Nulls")) []
       = (Return d, [] ++ [HttpGet api_url (strip (py "Nulls"))])
       /\ dict_get d (py "success") = Some (PBool true)
       /\ dict_get d (py "teams") = Some (PList [])
       /\ dict_get d (py "count") = Some (PInt 0)
       /\ has_key d (py "error") = false.
Proof.
  split; [repeat split; reflexivity|].
  apply (search_teams_null_records Scenario.remote Scenario.str0 (py "Nulls") []
           (Scenario.ok_response (PDict [ (py "teams", PList [PNone; PNone]) ]))
           [ (py "teams", PList [PNone; PNone]) ] [PNone; PNone]);
    reflexivity.
Defined.

End Witness.

(** ** The model on the scenarios *)

Module Examples.
Import SportsTools StockTools AgentRunner.

(** One record comes back for [Arsenal], with its long description cut. *)
Example search_arsenal :
  exists p,
    processed_team Scenario.arsenal = Return p
    /\ search_teams Scenario.remote Scenario.str0 (PStr (py "  Arsenal ")) []
       = (Return (teams_result [PDict p] (py "Arsenal")
                    (Some (py "Wed, 04 Nov 2026 12:00:00 GMT"))),
          [HttpGet api_url (py "Arsenal")])
    /\ dict_get p (py "description") = Some (PStr (repeat 65%N 200 ++ py "..."))
    /\ dict_get p (py "venue") = Some PNone
    /\ dict_get p (py "sport") = Some (PStr (py "Unknown Sport")).
Proof. eexists. repeat split; vm_compute; reflexivity. Qed.

(** A list of nulls goes through the loop: the result is the one of a
    search that found records, with none in it. *)
Example search_nulls :
  search_teams Scenario.remote Scenario.str0 (PStr (py "Nulls")) []
  = (Return (teams_result [] (py "Nulls") (Some (py "Wed, 04 Nov 2026 12:00:00 GMT"))),
     [HttpGet api_url (py "Nulls")])
  /\ dict_get (teams_result [] (py "Nulls") None) (py "message")
     = Some (PStr (py "Found 0 team(s) matching 'Nulls'")).
Proof. split; vm_compute; reflexivity. Qed.

(** An interrupt during the request does not derive from [Exception]: no
    clause catches it. *)
Example search_interrupted :
  search_teams (fun _ _ => Raise KeyboardInterrupt) Scenario.str0 (PStr (py "Arsenal")) []
  = (Raise KeyboardInterrupt, [HttpGet api_url (py "Arsenal")]).
Proof. vm_compute. reflexivity. Qed.

(** A number is not a team name, and no request is made for it. *)
Example search_number :
  search_teams Scenario.remote Scenario.str0 (PInt 7) []
  = (Return (invalid_input_result (PInt 7)), []).
Proof. reflexivity. Qed.

(** A truthy [teams] entry that is no list of records: a number cannot be
    iterated, and the last clause reports it. *)
Example search_teams_number :
  search_teams
    (fun _ _ => Return (Scenario.ok_response (PDict [ (py "teams", PInt 3) ])))
    Scenario.str0 (PStr (py "Arsenal")) []
  = (Return (technical_error_result Scenario.str0 (PStr (py "Arsenal"))
               (TypeError (py "'int' object is not iterable"))),
     [HttpGet api_url (py "Arsenal")]).
Proof. vm_compute. reflexivity. Qed.

(** The three library calls of a price lookup, and its result. *)
Example price_of_aapl :
  get_stock_price Scenario.yf (PStr (py "AAPL")) []
  = (Return [ (py "company_name", PStr (py "Apple Inc."));
              (py "current_price", PFloat (S754_finite false 5 0));
              (py "daily_high", PFloat (S754_finite false 5 0));
              (py "daily_low", PFloat (S754_finite false 5 0));
              (py "currency", PStr (py "USD"));
              (py "ticker", PStr (py "AAPL")) ],
     [YfTicker (PStr (py "AAPL")); YfInfo; YfHistory (py "1d")]).
Proof. vm_compute. reflexivity. Qed.

(** [agent_runner.py hello {}] with a runtime that streams [Hel] and [lo]. *)
Example run_hello :
  main Scenario.loads Scenario.runtime Scenario.no_traceback
    [py "agent_runner.py"; py "hello"; py "{}"] []
  = (Return tt,
     [RunAsync (py "hello"); Print (py "AGENT_RESPONSE_START"); Print (py "Hello");
      Print (py "AGENT_RESPONSE_END")])
  /\ stdout [RunAsync (py "hello"); Print (py "AGENT_RESPONSE_START");
             Print (py "Hello"); Print (py "AGENT_RESPONSE_END")]
     = py "AGENT_RESPONSE_START" ++ nl ++ py "Hello" ++ nl
       ++ py "AGENT_RESPONSE_END" ++ nl.
Proof. split; vm_compute; reflexivity. Qed.

(** Without a message the usage text is printed and the status is 1. *)
Example run_without_message :
  main Scenario.loads Scenario.runtime Scenario.no_traceback [py "agent_runner.py"] []
  = (Raise (SystemExit 1), [Print usage_text]).
Proof. vm_compute. reflexivity. Qed.

End Examples.

(* ================================================================== *)
(** * Further properties of the code *)
(* ================================================================== *)

(** Case analysis as [case_innermost_in], keeping the equation of each
    case. *)
Ltac case_innermost_eqn_in H :=
  cbv beta iota in H;
  repeat match type of H with
         | context [match ?x with _ => _ end] =>
             lazymatch x with
             | context [match _ with _ => _ end] => fail
             | _ => destruct x eqn:?; cbv beta iota in H
             end
         end.

(** ** [str.strip] *)

Lemma lstrip_spaces (pre s : pystr) :
  forallb isspace pre = true -> lstrip (pre ++ s) = lstrip s.
Proof.
  induction pre as [|c pre IH]; cbn [app forallb lstrip]; [reflexivity|].
  intros H. apply andb_true_iff in H as [Hc Hpre]. rewrite Hc. now apply IH.
Qed.

Lemma lstrip_head (s : pystr) (c : N) (r : pystr) :
  lstrip s = c :: r -> isspace c = false.
Proof.
  induction s as [|x s IH]; cbn [lstrip]; [discriminate|].
  destruct (isspace x) eqn:Hx; [exact IH|].
  intros H. injection H as <- _. exact Hx.
Qed.

Lemma lstrip_fixed (c : N) (s : pystr) :
  isspace c = false -> lstrip (c :: s) = c :: s.
Proof. intros H. cbn [lstrip]. now rewrite H. Qed.

(** [lstrip] takes a prefix of white space away and nothing else. *)
Lemma lstrip_split (s : pystr) :
  exists pre, s = pre ++ lstrip s /\ forallb isspace pre = true.
Proof.
  induction s as [|x s (pre & Hs & Hpre)]; cbn [lstrip].
  - exists []. split; reflexivity.
  - destruct (isspace x) eqn:Hx.
    + exists (x :: pre). cbn [app forallb]. rewrite Hx, Hpre. split; [congruence | reflexivity].
    + exists []. split; reflexivity.
Qed.

(** [lstrip] leaves the end of a string that does not end in white space. *)
Lemma lstrip_keeps_last (s : pystr) (c : N) :
  isspace c = false -> exists r, lstrip (s ++ [c]) = r ++ [c].
Proof.
  intros Hc. induction s as [|x s (r & IH)]; cbn [app lstrip].
  - rewrite Hc. exists []. reflexivity.
  - destruct (isspace x); [exists r; exact IH | exists (x :: s); reflexivity].
Qed.

Lemma rstrip_spaces (s post : pystr) :
  forallb isspace post = true -> rstrip (s ++ post) = rstrip s.
Proof.
  intros H. unfold rstrip. rewrite rev_app_distr, lstrip_spaces; [reflexivity|].
  rewrite forallb_forall in *. intros c Hin. apply H. now apply in_rev.
Qed.

(** The stripped string neither begins nor ends with white space. *)
Lemma strip_head (s : pystr) (c : N) (r : pystr) :
  strip s = c :: r -> isspace c = false.
Proof.
  unfold strip, rstrip.
  destruct (lstrip s) as [|x t] eqn:Hl; [discriminate|].
  pose proof (lstrip_head s x t Hl) as Hx.
  cbn [rev]. destruct (lstrip_keeps_last (rev t) x Hx) as (r' & ->).
  rewrite rev_app_distr. cbn [rev app]. intros H. injection H as <- _. exact Hx.
Qed.

Lemma strip_last (s r : pystr) (c : N) :
  strip s = r ++ [c] -> isspace c = false.
Proof.
  unfold strip, rstrip. intros H.
  apply (f_equal (@rev N)) in H. rewrite rev_involutive, rev_app_distr in H.
  cbn [rev app] in H. eapply lstrip_head. exact H.
Qed.

(** White space around a string does not change its stripped form. *)
Lemma strip_padded (pre s post : pystr) :
  forallb isspace pre = true -> forallb isspace post = true ->
  s <> [] -> isspace (hd 0%N s) = false -> isspace (last s 0%N) = false ->
  strip (pre ++ s ++ post) = s.
Proof.
  intros Hpre Hpost Hs Hhd Hlast.
  unfold strip. rewrite lstrip_spaces by exact Hpre.
  destruct s as [|c s]; [congruence|]. cbn [hd] in Hhd.
  cbn [app]. rewrite lstrip_fixed by exact Hhd.
  change (c :: s ++ post) with ((c :: s) ++ post).
  rewrite rstrip_spaces by exact Hpost.
  unfold rstrip.
  destruct (@exists_last _ (c :: s)) as (r & z & Hrz); [discriminate|].
  rewrite Hrz in *. rewrite last_last in Hlast.
  rewrite rev_app_distr. cbn [rev app]. rewrite lstrip_fixed by exact Hlast.
  change (z :: rev r) with ([z] ++ rev r).
  rewrite rev_app_distr, rev_involutive. reflexivity.
Qed.

(** Stripping twice is stripping once. *)
Lemma strip_idempotent (s : pystr) : strip (strip s) = strip s.
Proof.
  destruct (strip s) as [|c r] eqn:E; [reflexivity|].
  pose proof (strip_head s c r E) as Hc.
  destruct (@exists_last _ (c :: r)) as (r0 & z & Hrz); [discriminate|].
  assert (Hz : isspace z = false).
  { eapply strip_last. rewrite E. exact Hrz. }
  rewrite <- (app_nil_r (c :: r)) at 1.
  change (strip ((c :: r) ++ [])) with (strip ([] ++ (c :: r) ++ [])).
  apply strip_padded; try reflexivity; try discriminate; trivial.
  rewrite Hrz. rewrite last_last. exact Hz.
Qed.

Lemma lstrip_all_space (s : pystr) :
  forallb isspace s = true -> lstrip s = [].
Proof.
  intros H. rewrite <- (app_nil_r s). now rewrite lstrip_spaces.
Qed.

Lemma lstrip_app (s post : pystr) :
  lstrip s <> [] -> lstrip (s ++ post) = lstrip s ++ post.
Proof.
  induction s as [|x s IH]; cbn [lstrip app]; [congruence|].
  destruct (isspace x); [exact IH | reflexivity].
Qed.

(** White space around any string does not change its stripped form. *)
Lemma strip_pad (pre s post : pystr) :
  forallb isspace pre = true -> forallb isspace post = true ->
  strip (pre ++ s ++ post) = strip s.
Proof.
  intros Hpre Hpost. unfold strip. rewrite lstrip_spaces by exact Hpre.
  destruct (lstrip s) as [|c r] eqn:E.
  - destruct (lstrip_split s) as (p & Hs & Hp). rewrite E, app_nil_r in Hs. subst p.
    rewrite lstrip_all_space; [reflexivity|].
    rewrite forallb_app, Hp, Hpost. reflexivity.
  - rewrite lstrip_app by (rewrite E; discriminate). rewrite E.
    now apply rstrip_spaces.
Qed.

(** ** [search_teams]: the request *)

Module SportsCoverage.
Import SportsTools Spec SportsProps.

Lemma processed_team_fields (team p : dict) :
  processed_team team = Return p -> map fst p = output_fields.
Proof.
  unfold processed_team. destruct (description_of team); cbn [obind];
    [|discriminate].
  intros H. injection H as <-. reflexivity.
Qed.

Lemma process_teams_shape (teams acc processed : list PyVal) :
  process_teams teams acc = Return processed ->
  Forall record_shape acc -> Forall record_shape processed.
Proof.
  revert acc. induction teams as [|team rest IH]; intros acc; cbn [process_teams].
  - intros H Hacc. injection H as <-. exact Hacc.
  - destruct (truthy team && isinstance_dict team); [|apply IH].
    destruct team as [| | | | | |d]; try exact (IH acc).
    destruct (processed_team d) as [p|e] eqn:Hp; cbn [obind]; [|discriminate].
    intros H Hacc. apply (IH _ H). apply Forall_app. split; [exact Hacc|].
    constructor; [|constructor]. exists p. split; [reflexivity|].
    eapply processed_team_fields. exact Hp.
Qed.

Lemma process_teams_length (teams acc processed : list PyVal) :
  process_teams teams acc = Return processed ->
  length processed = length acc + length (filter kept_record teams).
Proof.
  revert acc. induction teams as [|team rest IH]; intros acc;
    cbn [process_teams filter].
  - intros H. injection H as <-. cbn. lia.
  - unfold kept_record at 1.
    destruct (truthy team && isinstance_dict team) eqn:Hk; [|apply IH].
    destruct team as [| | | | | |d];
      try (cbn in Hk; rewrite ?andb_false_r in Hk; discriminate Hk).
    destruct (processed_team d) as [p|e]; cbn [obind]; [|discriminate].
    intros H. apply IH in H. rewrite H, length_app. cbn. lia.
Qed.

(** A record the loop keeps and cannot normalize stops the loop. *)
Lemma process_teams_stops (teams acc : list PyVal) (team : dict) (e : exn) :
  In (PDict team) teams -> team <> [] ->
  description_of team = Raise e ->
  exists e', process_teams teams acc = Raise e'.
Proof.
  intros Hin Hne Hd. revert acc.
  induction teams as [|t rest IH]; intros acc; [contradiction|].
  cbn [process_teams]. destruct Hin as [-> | Hin].
  - assert (Hk : truthy (PDict team) && isinstance_dict (PDict team) = true).
    { destruct team; [congruence | reflexivity]. }
    rewrite Hk. unfold processed_team. rewrite Hd. cbn [obind]. eauto.
  - destruct (truthy t && isinstance_dict t); [|now apply IH].
    destruct t as [| | | | | |d]; try exact (IH Hin acc).
    destruct (processed_team d) as [p|e0]; cbn [obind]; [now apply IH | eauto].
Qed.

Section Adapter.

Variable requests_get : pystr -> pystr -> outcome Response.
Variable builtin_str : PyVal -> pystr.

(** The [except] clauses leave the trace as it is. *)
Lemma search_teams_except_trace (team_name : PyVal) (e : exn) (w : trace) :
  snd (match search_teams_except builtin_str team_name e with
       | Some h => h w
       | None => (Raise e, w)
       end) = w.
Proof. destruct e; reflexivity. Qed.

Lemma search_teams_try_accepted_trace (s : pystr) (w : trace) :
  accepted s = true ->
  snd (search_teams_try requests_get (PStr s) w) = w ++ [HttpGet api_url (strip s)].
Proof.
  intros Hacc. rewrite search_teams_try_accepted by exact Hacc.
  unfold bind, lift, ret. cbv zeta. case_innermost; reflexivity.
Qed.

Lemma search_teams_accepted_trace (s : pystr) (w : trace) :
  accepted s = true ->
  snd (search_teams requests_get builtin_str (PStr s) w)
  = w ++ [HttpGet api_url (strip s)].
Proof.
  intros Hacc. rewrite search_teams_unfold.
  pose proof (search_teams_try_accepted_trace s w Hacc) as Htry.
  destruct (search_teams_try requests_get (PStr s) w) as [[d|e] w0];
    cbn [snd] in Htry; subst w0; [reflexivity|].
  apply search_teams_except_trace.
Qed.

Lemma search_teams_rejected (s : pystr) (w : trace) :
  accepted s = false ->
  exists d, search_teams requests_get builtin_str (PStr s) w = (Return d, w)
            /\ validation_failure d.
Proof.
  intros Hacc. destruct s as [|c s].
  - exists (invalid_input_result (PStr [])). split.
    + now apply search_teams_rejects_input.
    + apply invalid_input_is_validation_failure.
  - unfold accepted in Hacc.
    destruct (re_match_team_name (strip (c :: s))) eqn:Hre.
    + exists (too_long_result (PStr (c :: s))). split.
      * apply search_teams_rejects_length; [exact Hre|].
        cbn [andb] in Hacc. apply Nat.leb_gt in Hacc. exact Hacc.
      * apply too_long_is_validation_failure.
    + exists (invalid_format_result (PStr (c :: s))). split.
      * apply search_teams_rejects_format; [discriminate | exact Hre].
      * apply invalid_format_is_validation_failure.
Qed.

Lemma search_teams_not_str (v : PyVal) (w : trace) :
  isinstance_str v = false ->
  search_teams requests_get builtin_str v w = (Return (invalid_input_result v), w).
Proof.
  intros H. apply search_teams_rejects_input. rewrite H. apply orb_true_r.
Qed.

(** X1.  The trace of every call: one request, with the stripped name, when the
    argument is a string that passes validation, and nothing otherwise. *)
Theorem search_teams_trace (team_name : PyVal) (w : trace) :
  snd (search_teams requests_get builtin_str team_name w)
  = match team_name with
    | PStr s => if accepted s then w ++ [HttpGet api_url (strip s)] else w
    | _ => w
    end.
Proof.
  destruct team_name as [| | | |s| |];
    try (rewrite search_teams_not_str by reflexivity; reflexivity).
  destruct (accepted s) eqn:Hacc.
  - now apply search_teams_accepted_trace.
  - destruct (search_teams_rejected s w Hacc) as (d & -> & _). reflexivity.
Qed.

(** X2.  Whatever the argument, a request that goes out goes to the one URL and
    carries a query that is non-empty, over the allow-list, of at most 50
    characters, and without white space at either end. *)
Theorem search_teams_query_is_clean (team_name : PyVal) (w : trace)
  (url t : pystr) :
  In (HttpGet url t) (snd (search_teams requests_get builtin_str team_name w)) ->
  ~ In (HttpGet url t) w ->
  url = api_url
  /\ t <> []
  /\ forallb team_name_char t = true
  /\ length t <= 50
  /\ strip t = t.
Proof.
  intros Hin Hnew.
  destruct team_name as [| | | |s| |];
    try (rewrite search_teams_not_str in Hin by reflexivity; contradiction).
  destruct (accepted s) eqn:Hacc.
  - rewrite search_teams_accepted_trace in Hin by exact Hacc.
    apply in_app_or in Hin as [Hin | [Hin | []]]; [contradiction|].
    injection Hin as <- <-.
    unfold accepted in Hacc. apply andb_true_iff in Hacc as [Hre Hlen].
    apply Nat.leb_le in Hlen.
    split; [reflexivity|].
    split; [intros E; rewrite E in Hre; discriminate|].
    split; [destruct (strip s); [discriminate | exact Hre]|].
    split; [exact Hlen | apply strip_idempotent].
  - destruct (search_teams_rejected s w Hacc) as (d & Heq & _).
    rewrite Heq in Hin. contradiction.
Qed.

(** A successful result comes from the [try] block of an accepted input,
    and its records from the loop. *)
Lemma search_teams_success_inv (team_name : PyVal) (w w' : trace) (d : dict) :
  search_teams requests_get builtin_str team_name w = (Return d, w') ->
  dict_get d (py "success") = Some (PBool true) ->
  exists s,
    team_name = PStr s /\ accepted s = true
    /\ search_teams_try requests_get (PStr s) w = (Return d, w')
    /\ (d = no_teams_result (strip s)
        \/ exists teams processed date,
             process_teams teams [] = Return processed
             /\ d = teams_result processed (strip s) date).
Proof.
  intros Heq Hsucc.
  destruct team_name as [| | | |s| |];
    try (rewrite search_teams_not_str in Heq by reflexivity;
         injection Heq as <- <-; discriminate Hsucc).
  exists s. split; [reflexivity|].
  destruct (accepted s) eqn:Hacc.
  - split; [reflexivity|].
    rewrite search_teams_unfold in Heq.
    destruct (search_teams_try requests_get (PStr s) w) as [[d0|e] w0] eqn:Htry.
    + injection Heq as -> ->. split; [reflexivity|].
      rewrite search_teams_try_accepted in Htry by exact Hacc.
      unfold bind, lift, ret in Htry. cbv zeta in Htry.
      case_innermost_eqn_in Htry; try discriminate Htry;
        injection Htry as <- <-; try discriminate Hsucc; eauto 8.
    + exfalso. destruct e; cbn in Heq; unfold ret in Heq; try discriminate Heq;
        injection Heq as <- <-; discriminate Hsucc.
  - exfalso. destruct (search_teams_rejected s w Hacc) as (d0 & Heq0 & Hs & _).
    rewrite Heq0 in Heq. injection Heq as <- <-. congruence.
Qed.

(** X3.  White space around an accepted name changes neither the request nor a
    successful result. *)
Theorem search_teams_ignores_padding (pre s post : pystr) (w w' : trace) (d : dict) :
  forallb isspace pre = true -> forallb isspace post = true ->
  search_teams requests_get builtin_str (PStr s) w = (Return d, w') ->
  dict_get d (py "success") = Some (PBool true) ->
  search_teams requests_get builtin_str (PStr (pre ++ s ++ post)) w = (Return d, w').
Proof.
  intros Hpre Hpost Heq Hsucc.
  destruct (search_teams_success_inv _ _ _ _ Heq Hsucc)
    as (s0 & Hs0 & Hacc & Htry & _).
  injection Hs0 as <-.
  assert (Hstrip : strip (pre ++ s ++ post) = strip s) by now apply strip_pad.
  assert (Hacc' : accepted (pre ++ s ++ post) = true).
  { unfold accepted in *. now rewrite Hstrip. }
  rewrite search_teams_unfold.
  rewrite (search_teams_try_accepted requests_get _ w Hacc').
  rewrite Hstrip.
  rewrite <- (search_teams_try_accepted requests_get s w Hacc).
  rewrite Htry. reflexivity.
Qed.

(** *** The classification of failures *)

(** X4.  A 4xx or 5xx status is reported as a network error, with the text of
    the HTTP error as technical detail; the body is not looked at. *)
Theorem search_teams_http_error (s : pystr) (w : trace) (response : Response) :
  accepted s = true ->
  requests_get api_url (strip s) = Return response ->
  (400 <= status_code response < 600)%Z ->
  exists d,
    search_teams requests_get builtin_str (PStr s) w
    = (Return d, w ++ [HttpGet api_url (strip s)])
    /\ dict_get d (py "success") = Some (PBool false)
    /\ dict_get d (py "network_error") = Some (PBool true)
    /\ dict_get d (py "technical_details") = Some (PStr (http_error response))
    /\ dict_get d (py "team_name") = Some (PStr s)
    /\ has_key d (py "teams") = false.
Proof.
  intros Hacc Hget Hstatus.
  exists (network_error_result (PStr s) (RequestException (http_error response))).
  split; [|repeat split].
  rewrite search_teams_unfold, search_teams_try_accepted by exact Hacc.
  unfold bind, lift. rewrite Hget. unfold raise_for_status.
  assert (Hrange : ((400 <=? status_code response) && (status_code response <? 600))%Z
                   = true).
  { apply andb_true_iff. split; [apply Z.leb_le | apply Z.ltb_lt]; lia. }
  rewrite Hrange. reflexivity.
Qed.

(** X5.  A request that fails in transport (any [RequestException] that is not
    a time-out) is reported as a network error with [str(e)] as technical
    detail. *)
Theorem search_teams_transport_error (s : pystr) (w : trace) (m : pystr) :
  accepted s = true ->
  requests_get api_url (strip s) = Raise (RequestException m) ->
  exists d,
    search_teams requests_get builtin_str (PStr s) w
    = (Return d, w ++ [HttpGet api_url (strip s)])
    /\ dict_get d (py "success") = Some (PBool false)
    /\ dict_get d (py "network_error") = Some (PBool true)
    /\ dict_get d (py "technical_details") = Some (PStr m)
    /\ dict_get d (py "team_name") = Some (PStr s)
    /\ has_key d (py "timeout_error") = false.
Proof.
  intros Hacc Hget.
  exists (network_error_result (PStr s) (RequestException m)).
  split; [|repeat split].
  rewrite search_teams_unfold, search_teams_try_accepted by exact Hacc.
  unfold bind, lift. rewrite Hget. reflexivity.
Qed.

(** X6.  A body that decodes to anything but an object (a list, a string, a
    number, null) is reported as an API error, under the stripped name. *)
Theorem search_teams_not_an_object (s : pystr) (w : trace) (response : Response)
  (body : PyVal) :
  accepted s = true ->
  requests_get api_url (strip s) = Return response ->
  raise_for_status response = Return tt ->
  json response = Return body ->
  isinstance_dict body = false ->
  exists d,
    search_teams requests_get builtin_str (PStr s) w
    = (Return d, w ++ [HttpGet api_url (strip s)])
    /\ dict_get d (py "success") = Some (PBool false)
    /\ dict_get d (py "api_error") = Some (PBool true)
    /\ dict_get d (py "team_name") = Some (PStr (strip s))
    /\ has_key d (py "error") = true
    /\ has_key d (py "teams") = false.
Proof.
  intros Hacc Hget Hstatus Hjson Hbody.
  exists (bad_format_result (strip s)). split; [|repeat split].
  rewrite search_teams_unfold, search_teams_try_accepted by exact Hacc.
  unfold bind, lift, ret. rewrite Hget, Hstatus, Hjson.
  destruct body; try discriminate Hbody; reflexivity.
Qed.

(** X7.  A body that does not decode: when [response.json()] raises a
    [RequestException] the result is a network error, when it raises a plain
    [JSONDecodeError] or another exception the result is the generic one with
    [str(e)] under [technical_error]. *)
Theorem search_teams_undecodable (s : pystr) (w : trace) (response : Response)
  (m : pystr) :
  accepted s = true ->
  requests_get api_url (strip s) = Return response ->
  raise_for_status response = Return tt ->
  (json response = Raise (RequestException m) ->
   exists d,
     search_teams requests_get builtin_str (PStr s) w
     = (Return d, w ++ [HttpGet api_url (strip s)])
     /\ dict_get d (py "success") = Some (PBool false)
     /\ dict_get d (py "network_error") = Some (PBool true)
     /\ dict_get d (py "technical_details") = Some (PStr m))
  /\ (json response = Raise (JSONDecodeError m)
      \/ json response = Raise (OtherException m) ->
      exists d,
        search_teams requests_get builtin_str (PStr s) w
        = (Return d, w ++ [HttpGet api_url (strip s)])
        /\ dict_get d (py "success") = Some (PBool false)
        /\ dict_get d (py "technical_error") = Some (PStr m)
        /\ has_key d (py "network_error") = false).
Proof.
  intros Hacc Hget Hstatus. split.
  - intros Hjson.
    exists (network_error_result (PStr s) (RequestException m)).
    split; [|repeat split].
    rewrite search_teams_unfold, search_teams_try_accepted by exact Hacc.
    unfold bind, lift. rewrite Hget, Hstatus, Hjson. reflexivity.
  - intros [Hjson | Hjson];
      eexists; (split; [|repeat split]);
      try (rewrite search_teams_unfold, search_teams_try_accepted by exact Hacc;
           unfold bind, lift; rewrite Hget, Hstatus, Hjson; reflexivity);
      reflexivity.
Qed.

(** *** The records of a successful result *)

(** X8.  In every successful result [teams] is a list, [count] is its length,
    [search_term] is the stripped argument, and every element of the list is
    an object with exactly the thirteen fields of a record. *)
Theorem search_teams_success_shape (team_name : PyVal) (w w' : trace) (d : dict) :
  search_teams requests_get builtin_str team_name w = (Return d, w') ->
  dict_get d (py "success") = Some (PBool true) ->
  exists s teams,
    team_name = PStr s
    /\ dict_get d (py "teams") = Some (PList teams)
    /\ dict_get d (py "count") = Some (PInt (Z.of_nat (length teams)))
    /\ dict_get d (py "search_term") = Some (PStr (strip s))
    /\ Forall record_shape teams.
Proof.
  intros Heq Hsucc.
  destruct (search_teams_success_inv _ _ _ _ Heq Hsucc)
    as (s & -> & _ & _ & [-> | (teams & processed & date & Hps & ->)]).
  - exists s, []. repeat split. constructor.
  - exists s, processed. repeat split.
    eapply process_teams_shape; [exact Hps | constructor].
Qed.

(** X9.  When the remote end answers with a list, the [count] of a successful
    result is the number of non-empty objects in that list. *)
Theorem search_teams_counts_records (s : pystr) (w w' : trace)
  (response : Response) (data : dict) (teams : list PyVal) (d : dict) :
  accepted s = true ->
  requests_get api_url (strip s) = Return response ->
  raise_for_status response = Return tt ->
  json response = Return (PDict data) ->
  dict_get data (py "teams") = Some (PList teams) ->
  search_teams requests_get builtin_str (PStr s) w = (Return d, w') ->
  dict_get d (py "success") = Some (PBool true) ->
  dict_get d (py "count")
  = Some (PInt (Z.of_nat (length (filter kept_record teams)))).
Proof.
  intros Hacc Hget Hstatus Hjson Hteams Heq Hsucc.
  rewrite (search_teams_on_object _ _ s w response data Hacc Hget Hstatus Hjson) in Heq.
  unfold dict_get_default in Heq. rewrite Hteams in Heq. cbv zeta in Heq.
  destruct (eq_list_of_None (PList teams)) eqn:Hnone.
  - assert (teams = [PNone]) as ->.
    { destruct teams as [|[] [|]]; try discriminate Hnone. reflexivity. }
    cbn in Heq. injection Heq as <- <-. reflexivity.
  - destruct teams as [|team rest].
    + cbn in Heq. injection Heq as <- <-. reflexivity.
    + cbn [truthy negb orb py_iter obind] in Heq.
      destruct (process_teams (team :: rest) []) as [processed|e] eqn:Hps;
        cbn [obind] in Heq; injection Heq as <- <-.
      * apply process_teams_length in Hps. cbn [length Nat.add] in Hps.
        rewrite <- Hps. reflexivity.
      * discriminate Hsucc.
Qed.

(** X10.  One record that cannot be normalized fails the whole search: when the
    list holds a non-empty object whose description is a non-zero number or
    [True], the result is the generic failure and no record is returned,
    whatever else the list holds. *)
Theorem search_teams_bad_description (s : pystr) (w : trace)
  (response : Response) (data : dict) (teams : list PyVal) (team : dict)
  (v : PyVal) :
  accepted s = true ->
  requests_get api_url (strip s) = Return response ->
  raise_for_status response = Return tt ->
  json response = Return (PDict data) ->
  dict_get data (py "teams") = Some (PList teams) ->
  In (PDict team) teams ->
  dict_get team (py "strDescriptionEN") = Some v ->
  is_number v = true -> truthy v = true ->
  exists d,
    search_teams requests_get builtin_str (PStr s) w
    = (Return d, w ++ [HttpGet api_url (strip s)])
    /\ dict_get d (py "success") = Some (PBool false)
    /\ has_key d (py "technical_error") = true
    /\ has_key d (py "teams") = false.
Proof.
  intros Hacc Hget Hstatus Hjson Hteams Hin Hdesc Hnum Htruthy.
  assert (Hne : team <> []) by (intros ->; discriminate Hdesc).
  assert (Hraise : exists e, description_of team = Raise e).
  { unfold description_of, dict_get_default. rewrite Hdesc, Htruthy.
    destruct v; try discriminate Hnum; cbn; eauto. }
  destruct Hraise as (e & Hraise).
  destruct (process_teams_stops teams [] team e Hin Hne Hraise) as (e' & Hstop).
  rewrite (search_teams_on_object _ _ s w response data Hacc Hget Hstatus Hjson).
  unfold dict_get_default. rewrite Hteams. cbv zeta.
  destruct teams as [|t rest]; [contradiction|].
  assert (Hc : negb (truthy (PList (t :: rest))) || eq_list_of_None (PList (t :: rest))
               = false).
  { cbn. destruct t; try reflexivity. destruct rest; [|reflexivity].
    destruct Hin as [Hin | []]. discriminate Hin. }
  rewrite Hc. cbn [py_iter obind]. rewrite Hstop. cbn [obind].
  eexists. split; [reflexivity|]. repeat split.
Qed.

(** X11.  A [teams] entry that is not a list.  A non-empty string or object is
    iterated (its characters, its keys), none of which is a record: the
    search succeeds with no team.  A non-zero number or [True] cannot be
    iterated: the search fails with the generic failure. *)
Theorem search_teams_teams_not_a_list (s : pystr) (w : trace)
  (response : Response) (data : dict) (v : PyVal) :
  accepted s = true ->
  requests_get api_url (strip s) = Return response ->
  raise_for_status response = Return tt ->
  json response = Return (PDict data) ->
  dict_get data (py "teams") = Some v ->
  truthy v = true ->
  (isinstance_str v = true \/ isinstance_dict v = true ->
   search_teams requests_get builtin_str (PStr s) w
   = (Return (teams_result [] (strip s) (header_date response)),
      w ++ [HttpGet api_url (strip s)]))
  /\ (is_number v = true ->
      exists d,
        search_teams requests_get builtin_str (PStr s) w
        = (Return d, w ++ [HttpGet api_url (strip s)])
        /\ dict_get d (py "success") = Some (PBool false)
        /\ has_key d (py "technical_error") = true).
Proof.
  intros Hacc Hget Hstatus Hjson Hteams Htruthy.
  rewrite (search_teams_on_object _ _ s w response data Hacc Hget Hstatus Hjson).
  unfold dict_get_default. rewrite Hteams. cbv zeta. rewrite Htruthy.
  split.
  - intros [Hv | Hv]; destruct v as [| | | |str| |obj]; try discriminate Hv;
      cbn [negb orb eq_list_of_None py_iter obind].
    + rewrite process_teams_no_record; [reflexivity|].
      apply forallb_forall. intros x Hx.
      apply in_map_iff in Hx as (c & <- & _). reflexivity.
    + rewrite process_teams_no_record; [reflexivity|].
      apply forallb_forall. intros x Hx.
      apply in_map_iff in Hx as (kv & <- & _).
      cbn [isinstance_dict]. rewrite andb_false_r. reflexivity.
  - intros Hv. destruct v; try discriminate Hv; cbn;
      eexists; (split; [reflexivity|]); repeat split.
Qed.

(** The result of an accepted input, by the [return] that produced it. *)
Lemma search_teams_accepted_returns (s : pystr) (w w' : trace) (d : dict) :
  accepted s = true ->
  search_teams requests_get builtin_str (PStr s) w = (Return d, w') ->
  (exists clean, d = bad_format_result clean)
  \/ (exists clean, d = no_teams_result clean)
  \/ (exists processed clean date, d = teams_result processed clean date)
  \/ d = timeout_result (PStr s)
  \/ (exists e, d = network_error_result (PStr s) e)
  \/ (exists e, d = technical_error_result builtin_str (PStr s) e).
Proof.
  intros Hacc. rewrite search_teams_unfold.
  destruct (search_teams_try requests_get (PStr s) w) as [[d0|e] w0] eqn:Htry.
  - intros H. injection H as <- <-.
    rewrite search_teams_try_accepted in Htry by exact Hacc.
    unfold bind, lift, ret in Htry. cbv zeta in Htry.
    case_innermost_in Htry; try discriminate Htry;
      injection Htry as <- <-; eauto 10.
  - destruct (search_teams_except builtin_str (PStr s) e) as [h|] eqn:Hh;
      [|discriminate].
    intros H. eapply search_teams_except_returns in H; [|exact Hh].
    destruct H as [-> | [-> | ->]]; eauto 10.
Qed.

(** X12.  Every failure carries exactly one of the five markers, and a success
    none: the kinds of failure do not overlap. *)
Theorem search_teams_one_marker (team_name : PyVal) (w w' : trace) (d : dict) :
  search_teams requests_get builtin_str team_name w = (Return d, w') ->
  (dict_get d (py "success") = Some (PBool true) /\ markers_of d = [])
  \/ (dict_get d (py "success") = Some (PBool false)
      /\ exists marker, markers_of d = [marker]).
Proof.
  intros Heq.
  assert (Hforms :
    (exists v, d = invalid_input_result v \/ d = invalid_format_result v
               \/ d = too_long_result v \/ d = timeout_result v)
    \/ (exists clean, d = bad_format_result clean)
    \/ (exists clean, d = no_teams_result clean)
    \/ (exists processed clean date, d = teams_result processed clean date)
    \/ (exists v e, d = network_error_result v e)
    \/ (exists v e, d = technical_error_result builtin_str v e)).
  { rewrite search_teams_unfold in Heq.
    destruct (search_teams_try requests_get team_name w) as [[d0|e] w0] eqn:Htry.
    - injection Heq as <- <-.
      apply search_teams_try_returns in Htry
        as [-> | [-> | [-> | [? | [? | ?]]]]]; eauto 10.
    - destruct (search_teams_except builtin_str team_name e) as [h|] eqn:Hh;
        [|discriminate].
      eapply search_teams_except_returns in Heq; [|exact Hh].
      destruct Heq as [-> | [-> | ->]]; eauto 10. }
  destruct Hforms
    as [(v & [-> | [-> | [-> | ->]]]) | [(c & ->) | [(c & ->) |
        [(ps & c & date & ->) | [(v & e & ->) | (v & e & ->)]]]]];
    first [ left; split; reflexivity
          | right; split; [reflexivity | eexists; reflexivity] ].
Qed.

(** X13.  The validation marker tells that nothing was sent: a result carries it
    exactly when the call left the trace as it was. *)
Theorem search_teams_marker_iff_no_request (team_name : PyVal) (w w' : trace)
  (d : dict) :
  search_teams requests_get builtin_str team_name w = (Return d, w') ->
  has_key d (py "validation_failed") = true <-> w' = w.
Proof.
  intros Heq.
  destruct team_name as [| | | |s| |];
    try (rewrite search_teams_not_str in Heq by reflexivity;
         injection Heq as <- <-; split; reflexivity).
  destruct (accepted s) eqn:Hacc.
  - pose proof (search_teams_accepted_trace s w Hacc) as Htrace.
    rewrite Heq in Htrace. cbn [snd] in Htrace.
    assert (Hkey : has_key d (py "validation_failed") = false).
    { destruct (search_teams_accepted_returns s w w' d Hacc Heq)
        as [(c & ->) | [(c & ->) | [(ps & c & date & ->) | [-> |
            [(e & ->) | (e & ->)]]]]]; reflexivity. }
    rewrite Hkey. split; [discriminate|].
    intros ->. apply (f_equal (@length event)) in Htrace.
    rewrite length_app in Htrace. cbn in Htrace. lia.
  - destruct (search_teams_rejected s w Hacc) as (d0 & Heq0 & _ & Hmark & _).
    rewrite Heq0 in Heq. injection Heq as <- <-.
    unfold has_key. rewrite Hmark. split; reflexivity.
Qed.

End Adapter.

(** X14.  A field that is present is copied as it is, null included: the default
    of the table is for an absent field only. *)
Theorem present_fields_pass_through (team p : dict) :
  processed_team team = Return p ->
  forall remote field default v,
    In (remote, field, default) default_table ->
    remote <> py "strDescriptionEN" ->
    dict_get team remote = Some v ->
    dict_get p field = Some v.
Proof.
  unfold processed_team.
  destruct (description_of team) as [description|e]; cbn [obind]; [|discriminate].
  intros H. injection H as <-.
  intros remote field default v Hin Hnot Hv.
  unfold default_table in Hin. cbn [In] in Hin.
  repeat (destruct Hin as [Hin | Hin];
          [injection Hin as <- <- <-;
           try (exfalso; apply Hnot; reflexivity);
           cbv [dict_get_default]; rewrite Hv; reflexivity |]).
  contradiction.
Qed.

Lemma processed_team_description (team p : dict) (v : PyVal) :
  processed_team team = Return p -> description_of team = Return v ->
  dict_get p (py "description") = Some v.
Proof.
  unfold processed_team. intros H Hv. rewrite Hv in H. cbn [obind] in H.
  injection H as <-. reflexivity.
Qed.

(** X15.  The description of a record of the result, when the remote one is a
    string, is a string of at most 203 characters that begins with the first
    200 characters of the remote one. *)
Theorem description_bounded (team p : dict) (desc : pystr) :
  processed_team team = Return p ->
  dict_get team (py "strDescriptionEN") = Some (PStr desc) ->
  exists out,
    dict_get p (py "description") = Some (PStr out)
    /\ length out <= 203
    /\ firstn 200 out = firstn 200 desc.
Proof.
  intros H Hd.
  pose proof (processed_team_description team p _ H (description_of_str team desc Hd))
    as Hout.
  eexists. split; [exact Hout|].
  destruct (200 <? length desc) eqn:Hlen.
  - apply Nat.ltb_lt in Hlen. split.
    + rewrite length_app, length_firstn.
      change (length (py "...")) with 3. lia.
    + rewrite firstn_app, length_firstn.
      replace (200 - Nat.min 200 (length desc)) with 0 by lia.
      rewrite firstn_O, app_nil_r, firstn_firstn, Nat.min_id. reflexivity.
  - apply Nat.ltb_ge in Hlen. split; [lia | reflexivity].
Qed.

End SportsCoverage.

(** ** [get_stock_price] *)

Module StockCoverage.
Import StockTools Spec StockProps.

Section Adapter.

Variable yf_Ticker : PyVal -> outcome Ticker.

(** X16.  The library is called in the order [Ticker], [info], [history], each
    once, and not after the first of the calls that raises. *)
Theorem get_stock_price_trace (ticker : PyVal) (w : trace) :
  snd (get_stock_price yf_Ticker ticker w)
  = w ++ match yf_Ticker ticker with
         | Raise _ => [YfTicker ticker]
         | Return stock =>
             match info stock with
             | Raise _ => [YfTicker ticker; YfInfo]
             | Return _ => [YfTicker ticker; YfInfo; YfHistory (py "1d")]
             end
         end.
Proof.
  unfold get_stock_price, try_except, get_stock_price_try,
    get_stock_price_except, bind, lift, emit, ret.
  case_innermost; cbn [snd]; rewrite <- ?app_assoc; reflexivity.
Qed.

(** X17.  Every result carries the argument back under [ticker], unchanged. *)
Theorem get_stock_price_echoes_ticker (ticker : PyVal) (w w' : trace) (d : dict) :
  get_stock_price yf_Ticker ticker w = (Return d, w') ->
  dict_get d (py "ticker") = Some ticker.
Proof.
  unfold get_stock_price, try_except, get_stock_price_try,
    get_stock_price_except, bind, lift, emit, ret.
  intros H. case_innermost_in H; try discriminate H;
    injection H as <- <-; reflexivity.
Qed.

(** X18.  The prices of a result are those of the last row of the history; the
    company name and the currency fall back on ['Unknown'] and ['USD']. *)
Theorem get_stock_price_last_row (ticker : PyVal) (w : trace) (stock : Ticker)
  (information : dict) (price_data : DataFrame)
  (closes highs lows : list spec_float) (close high low : spec_float) :
  yf_Ticker ticker = Return stock ->
  info stock = Return information ->
  history stock (py "1d") = Return price_data ->
  column price_data (py "Close") = Some (closes ++ [close]) ->
  column price_data (py "High") = Some (highs ++ [high]) ->
  column price_data (py "Low") = Some (lows ++ [low]) ->
  get_stock_price yf_Ticker ticker w
  = (Return
       [ (py "company_name",
           match dict_get information (py "shortName") with
           | Some name => name
           | None => PStr (py "Unknown")
           end);
         (py "current_price", PFloat close);
         (py "daily_high", PFloat high);
         (py "daily_low", PFloat low);
         (py "currency",
           match dict_get information (py "currency") with
           | Some currency => currency
           | None => PStr (py "USD")
           end);
         (py "ticker", ticker) ],
     w ++ [YfTicker ticker; YfInfo; YfHistory (py "1d")]).
Proof.
  intros Hticker Hinfo Hhistory Hclose Hhigh Hlow.
  unfold get_stock_price, try_except, get_stock_price_try, bind, lift, emit, ret.
  rewrite Hticker, Hinfo, Hhistory. unfold last_of.
  rewrite Hclose, Hhigh, Hlow. rewrite !rev_app_distr. cbn [rev app].
  rewrite <- !app_assoc. reflexivity.
Qed.

(** X19.  A history without rows, or without the [Close] column, gives the
    failure result, after all three calls were made. *)
Theorem get_stock_price_no_rows (ticker : PyVal) (w : trace) (stock : Ticker)
  (information : dict) (price_data : DataFrame) :
  yf_Ticker ticker = Return stock ->
  info stock = Return information ->
  history stock (py "1d") = Return price_data ->
  column price_data (py "Close") = Some [] \/ column price_data (py "Close") = None ->
  exists text,
    get_stock_price yf_Ticker ticker w
    = (Return [ (py "error",
                  PStr (py "Failed to retrieve stock information: " ++ text));
                (py "ticker", ticker) ],
       w ++ [YfTicker ticker; YfInfo; YfHistory (py "1d")]).
Proof.
  intros Hticker Hinfo Hhistory Hclose.
  unfold get_stock_price, try_except, get_stock_price_try, bind, lift, emit, ret.
  rewrite Hticker, Hinfo, Hhistory. unfold last_of at 1.
  destruct Hclose as [-> | ->]; cbn [rev]; eexists;
    rewrite <- !app_assoc; reflexivity.
Qed.

End Adapter.
End StockCoverage.

(** ** [run_agent] and [main] *)

Module RunnerCoverage.
Import AgentRunner RunnerProps.

Lemma fold_left_concat {A} (f : A -> pystr) (l : list A) (acc : pystr) :
  fold_left (fun acc x => acc ++ f x) l acc = acc ++ concat (map f l).
Proof.
  revert acc. induction l as [|x l IH]; intros acc; cbn [fold_left map concat].
  - now rewrite app_nil_r.
  - rewrite IH, app_assoc. reflexivity.
Qed.

Lemma runtime_calls_app (w1 w2 : trace) :
  runtime_calls (w1 ++ w2) = runtime_calls w1 + runtime_calls w2.
Proof. unfold runtime_calls. now rewrite filter_app, length_app. Qed.

Section Runner.

Variable json_loads : pystr -> outcome PyVal.
Variable run_async : pystr -> list Chunk * option exn.
Variable format_exc : exn -> pystr.

(** The three ways [run_agent] ends, by the end of the stream. *)

Lemma run_agent_returns (message : pystr) (context : PyVal) (w : trace)
  (chunks : list Chunk) :
  run_async message = (chunks, None) ->
  run_agent run_async format_exc message context w
  = (Return (strip (fold_left (fun acc chunk => acc ++ chunk_text chunk) chunks [])),
     w ++ [RunAsync message]).
Proof.
  intros H. unfold run_agent, try_except, run_agent_try, bind, emit, ret.
  rewrite H. reflexivity.
Qed.

Lemma run_agent_wraps (message : pystr) (context : PyVal) (w : trace)
  (chunks : list Chunk) (e : exn) :
  run_async message = (chunks, Some e) ->
  is_Exception e = true ->
  run_agent run_async format_exc message context w
  = (Raise (OtherException
              (py "Agent execution error: " ++ exn_str e ++ nl ++ format_exc e)),
     w ++ [RunAsync message]).
Proof.
  intros H He. unfold run_agent, try_except, run_agent_try, bind, emit, raise.
  rewrite H, He. reflexivity.
Qed.

Lemma run_agent_passes (message : pystr) (context : PyVal) (w : trace)
  (chunks : list Chunk) (e : exn) :
  run_async message = (chunks, Some e) ->
  is_Exception e = false ->
  run_agent run_async format_exc message context w
  = (Raise e, w ++ [RunAsync message]).
Proof.
  intros H He. unfold run_agent, try_except, run_agent_try, bind, emit, raise.
  rewrite H, He. reflexivity.
Qed.

(** X20.  The response of [run_agent] is the texts of the chunks, joined in the
    order of arrival and stripped; each chunk gives its [content] if it has
    one, else its [text], else its [data], else [str(chunk)]. *)
Theorem run_agent_joins_chunks (message : pystr) (context : PyVal) (w : trace)
  (chunks : list Chunk) :
  run_async message = (chunks, None) ->
  run_agent run_async format_exc message context w
  = (Return (strip (concat (map chunk_text chunks))), w ++ [RunAsync message])
  /\ forall chunk, In chunk chunks ->
       (forall s, content chunk = Some s -> chunk_text chunk = s)
       /\ (forall s, content chunk = None -> text chunk = Some s ->
           chunk_text chunk = s)
       /\ (forall s, content chunk = None -> text chunk = None ->
           data chunk = Some s -> chunk_text chunk = s)
       /\ (content chunk = None -> text chunk = None -> data chunk = None ->
           chunk_text chunk = chunk_str chunk).
Proof.
  intros H. split.
  - rewrite (run_agent_returns message context w chunks H).
    rewrite fold_left_concat. reflexivity.
  - intros chunk _. unfold chunk_text. repeat split.
    + intros s ->. reflexivity.
    + intros s -> ->. reflexivity.
    + intros s -> -> ->. reflexivity.
    + intros -> -> ->. reflexivity.
Qed.

(** X21.  With a message, and a context that is absent or parses, and a stream
    that ends normally, [main] prints the response between the two response
    sentinels and returns: the exit status is 0 and the runtime was entered
    once. *)
Theorem main_prints_response (argv : list pystr) (w : trace)
  (chunks : list Chunk) :
  2 <= length argv ->
  (length argv = 2 \/ exists v, json_loads (nth 2 argv []) = Return v) ->
  run_async (nth 1 argv []) = (chunks, None) ->
  let response := strip (concat (map chunk_text chunks)) in
  main json_loads run_async format_exc argv w
  = (Return tt,
     w ++ [RunAsync (nth 1 argv []); Print (py "AGENT_RESPONSE_START");
           Print response; Print (py "AGENT_RESPONSE_END")])
  /\ stdout (snd (main json_loads run_async format_exc argv w))
     = stdout w ++ py "AGENT_RESPONSE_START" ++ nl ++ response ++ nl
       ++ py "AGENT_RESPONSE_END" ++ nl
  /\ exit_status (fst (main json_loads run_async format_exc argv w)) = 0%Z.
Proof.
  intros Hlen Hctx Hrun response.
  assert (Hmain : main json_loads run_async format_exc argv w
                  = (Return tt,
                     w ++ [RunAsync (nth 1 argv []); Print (py "AGENT_RESPONSE_START");
                           Print response; Print (py "AGENT_RESPONSE_END")])).
  { unfold main, try_except, bind, lift, emit, ret.
    assert (H1 : (length argv <? 2) = false) by (apply Nat.ltb_ge; lia).
    rewrite H1.
    destruct Hctx as [H2 | (v & Hv)].
    - rewrite H2. cbn [Nat.ltb Nat.leb].
      rewrite (run_agent_returns _ _ w chunks Hrun), fold_left_concat.
      cbv beta iota; rewrite <- ?app_assoc. reflexivity.
    - destruct (2 <? length argv); rewrite ?Hv;
        rewrite (run_agent_returns _ _ w chunks Hrun), fold_left_concat;
        cbv beta iota; rewrite <- ?app_assoc; reflexivity. }
  rewrite Hmain. cbn [fst snd exit_status].
  split; [reflexivity|]. split; [|reflexivity].
  rewrite stdout_app. cbn [stdout]. rewrite app_nil_r, <- ?app_assoc. reflexivity.
Qed.

(** X22.  When the stream ends with an exception, what was received is dropped:
    [main] prints one error block whose text has the exception's message and
    the traceback, prints no response sentinel, and exits with status 1. *)
Theorem main_reports_runtime_failure (argv : list pystr) (w : trace)
  (chunks : list Chunk) (e : exn) :
  2 <= length argv ->
  (length argv = 2 \/ exists v, json_loads (nth 2 argv []) = Return v) ->
  run_async (nth 1 argv []) = (chunks, Some e) ->
  is_Exception e = true ->
  main json_loads run_async format_exc argv w
  = (Raise (SystemExit 1),
     w ++ [RunAsync (nth 1 argv []); Print (py "AGENT_ERROR_START");
           Print (py "Error: " ++ py "Agent execution error: " ++ exn_str e
                  ++ nl ++ format_exc e);
           Print (py "AGENT_ERROR_END")]).
Proof.
  intros Hlen Hctx Hrun He.
  unfold main, try_except, bind, lift, emit, ret, sys_exit, raise.
  assert (H1 : (length argv <? 2) = false) by (apply Nat.ltb_ge; lia).
  rewrite H1.
  destruct Hctx as [H2 | (v & Hv)].
  - rewrite H2. cbn [Nat.ltb Nat.leb].
    rewrite (run_agent_wraps _ _ w chunks e Hrun He). cbn [is_Exception exn_str].
    cbv beta iota; rewrite <- ?app_assoc. reflexivity.
  - destruct (2 <? length argv); rewrite ?Hv;
      rewrite (run_agent_wraps _ _ w chunks e Hrun He); cbn [is_Exception exn_str];
      cbv beta iota; rewrite <- ?app_assoc; reflexivity.
Qed.

(** X23.  The context is parsed and then never used: with a context that parses,
    and with whatever follows it on the command line, [main] does what it
    does without them. *)
Theorem main_ignores_context (program message context : pystr)
  (rest : list pystr) (w : trace) (v : PyVal) :
  json_loads context = Return v ->
  main json_loads run_async format_exc (program :: message :: context :: rest) w
  = main json_loads run_async format_exc [program; message] w.
Proof.
  intros Hv. unfold main, try_except, bind, lift, ret.
  cbn [length Nat.ltb Nat.leb nth]. rewrite Hv. reflexivity.
Qed.

(** X24.  Without a message [main] prints the usage text between the error
    sentinels and exits with status 1; neither the parser nor the runtime is
    reached. *)
Theorem main_usage (argv : list pystr) (w : trace) :
  length argv < 2 ->
  main json_loads run_async format_exc argv w
  = (Raise (SystemExit 1),
     w ++ [Print (py "AGENT_ERROR_START" ++ nl
                  ++ py "Usage: python agent_runner.py <message> [context_json]" ++ nl
                  ++ py "AGENT_ERROR_END")])
  /\ runtime_calls (snd (main json_loads run_async format_exc argv w))
     = runtime_calls w.
Proof.
  intros Hlen.
  assert (Hmain : main json_loads run_async format_exc argv w
                  = (Raise (SystemExit 1), w ++ [Print usage_text])).
  { unfold main, try_except, bind, emit, sys_exit, raise.
    apply Nat.ltb_lt in Hlen. rewrite Hlen. reflexivity. }
  rewrite Hmain. split; [reflexivity|]. apply runtime_calls_print.
Qed.

(** X25.  A parser failure that is not a [JSONDecodeError] (a recursion limit,
    say) is not reported as invalid JSON: it reaches the last handler, which
    prints it as a general error; the runtime is not entered. *)
Theorem main_parser_crash (argv : list pystr) (w : trace) (m : pystr) :
  2 < length argv ->
  json_loads (nth 2 argv []) = Raise (OtherException m) ->
  main json_loads run_async format_exc argv w
  = (Raise (SystemExit 1),
     w ++ [Print (py "AGENT_ERROR_START"); Print (py "Error: " ++ m);
           Print (py "AGENT_ERROR_END")]).
Proof.
  intros Hlen Hjson.
  unfold main, try_except, bind, lift, emit, sys_exit, raise.
  assert (H1 : (length argv <? 2) = false) by (apply Nat.ltb_ge; lia).
  assert (H2 : (2 <? length argv) = true) by (apply Nat.ltb_lt; lia).
  rewrite H1, H2, Hjson. cbn [is_Exception exn_str].
  cbv beta iota; rewrite <- ?app_assoc. reflexivity.
Qed.

(** X26.  What a run of [main] can be, whatever the arguments and whatever the
    parser and the runtime do.  Either the runtime is entered once, the
    response block is printed, and [main] returns.  Or [main] exits with
    status 1 after exactly one error block: the usage text or the
    invalid-JSON text in one print, with the runtime not entered, or the
    three prints of the last handler, with the runtime entered at most
    once.  Or an exception that does not derive from [Exception] leaves
    [main], with nothing printed. *)
Theorem main_outcomes (argv : list pystr) (w : trace) :
  exists evs,
    snd (main json_loads run_async format_exc argv w) = w ++ evs
    /\ let o := fst (main json_loads run_async format_exc argv w) in
       let message := nth 1 argv [] in
       (o = Return tt
        /\ exists response,
             evs = [RunAsync message; Print (py "AGENT_RESPONSE_START");
                    Print response; Print (py "AGENT_RESPONSE_END")])
       \/ (o = Raise (SystemExit 1)
           /\ (evs = [Print (py "AGENT_ERROR_START" ++ nl
                             ++ py "Usage: python agent_runner.py <message> [context_json]"
                             ++ nl ++ py "AGENT_ERROR_END")]
               \/ (exists text,
                     evs = [Print (py "AGENT_ERROR_START" ++ nl
                                   ++ py "Invalid context JSON: " ++ text ++ nl
                                   ++ py "AGENT_ERROR_END")])
               \/ (exists text,
                     evs = [Print (py "AGENT_ERROR_START");
                            Print (py "Error: " ++ text);
                            Print (py "AGENT_ERROR_END")])
               \/ (exists text,
                     evs = [RunAsync message; Print (py "AGENT_ERROR_START");
                            Print (py "Error: " ++ text);
                            Print (py "AGENT_ERROR_END")])))
       \/ (exists e, o = Raise e /\ is_Exception e = false
                     /\ (evs = [] \/ evs = [RunAsync message])).
Proof.
  assert (Hrun : forall user_context,
    let r := try_except
      (response <- run_agent run_async format_exc (nth 1 argv []) user_context ;;
       emit (Print (py "AGENT_RESPONSE_START")) ;;;
       emit (Print response) ;;;
       emit (Print (py "AGENT_RESPONSE_END")))
      (fun e =>
         if is_Exception e
         then Some (emit (Print (py "AGENT_ERROR_START")) ;;;
                    emit (Print (py "Error: " ++ exn_str e)) ;;;
                    emit (Print (py "AGENT_ERROR_END")) ;;;
                    sys_exit 1)
         else None) w in
    (fst r = Return tt
     /\ exists response,
          snd r = w ++ [RunAsync (nth 1 argv []); Print (py "AGENT_RESPONSE_START");
                        Print response; Print (py "AGENT_RESPONSE_END")])
    \/ (fst r = Raise (SystemExit 1)
        /\ exists text,
             snd r = w ++ [RunAsync (nth 1 argv []); Print (py "AGENT_ERROR_START");
                           Print (py "Error: " ++ text);
                           Print (py "AGENT_ERROR_END")])
    \/ (exists e, fst r = Raise e /\ is_Exception e = false
                  /\ snd r = w ++ [RunAsync (nth 1 argv [])])).
  { intros user_context. cbv zeta.
    unfold try_except, bind, emit, ret, sys_exit, raise.
    destruct (run_async (nth 1 argv [])) as [chunks [e|]] eqn:Hasync.
    - destruct (is_Exception e) eqn:He.
      + rewrite (run_agent_wraps _ user_context w chunks e Hasync He).
        cbn [is_Exception fst snd exn_str]. right. left.
        split; [reflexivity|].
        exists (py "Agent execution error: " ++ exn_str e ++ nl ++ format_exc e).
        rewrite <- !app_assoc. reflexivity.
      + rewrite (run_agent_passes _ user_context w chunks e Hasync He).
        rewrite He. cbn [fst snd]. right. right. exists e.
        split; [reflexivity|]. split; [exact He | reflexivity].
    - rewrite (run_agent_returns _ user_context w chunks Hasync).
      cbn [fst snd]. left. split; [reflexivity|].
      exists (strip (fold_left (fun acc chunk => acc ++ chunk_text chunk) chunks [])).
      rewrite <- !app_assoc. reflexivity. }
  cbv zeta in Hrun.
  assert (Hlift : forall user_context,
    let r := try_except
      (response <- run_agent run_async format_exc (nth 1 argv []) user_context ;;
       emit (Print (py "AGENT_RESPONSE_START")) ;;;
       emit (Print response) ;;;
       emit (Print (py "AGENT_RESPONSE_END")))
      (fun e =>
         if is_Exception e
         then Some (emit (Print (py "AGENT_ERROR_START")) ;;;
                    emit (Print (py "Error: " ++ exn_str e)) ;;;
                    emit (Print (py "AGENT_ERROR_END")) ;;;
                    sys_exit 1)
         else None) w in
    exists evs,
      snd r = w ++ evs
      /\ ((fst r = Return tt
           /\ exists response,
                evs = [RunAsync (nth 1 argv []); Print (py "AGENT_RESPONSE_START");
                       Print response; Print (py "AGENT_RESPONSE_END")])
          \/ (fst r = Raise (SystemExit 1)
              /\ (evs = [Print (py "AGENT_ERROR_START" ++ nl
                                ++ py "Usage: python agent_runner.py <message> [context_json]"
                                ++ nl ++ py "AGENT_ERROR_END")]
                  \/ (exists text,
                        evs = [Print (py "AGENT_ERROR_START" ++ nl
                                      ++ py "Invalid context JSON: " ++ text ++ nl
                                      ++ py "AGENT_ERROR_END")])
                  \/ (exists text,
                        evs = [Print (py "AGENT_ERROR_START");
                               Print (py "Error: " ++ text);
                               Print (py "AGENT_ERROR_END")])
                  \/ (exists text,
                        evs = [RunAsync (nth 1 argv []); Print (py "AGENT_ERROR_START");
                               Print (py "Error: " ++ text);
                               Print (py "AGENT_ERROR_END")])))
          \/ (exists e, fst r = Raise e /\ is_Exception e = false
                        /\ (evs = [] \/ evs = [RunAsync (nth 1 argv [])])))).
  { intros user_context. cbv zeta.
    destruct (Hrun user_context)
      as [(Ho & response & Hw) | [(Ho & text & Hw) | (e & Ho & He & Hw)]];
      eexists; (split; [exact Hw|]).
    - left. split; [exact Ho|]. exists response. reflexivity.
    - right. left. split; [exact Ho|]. do 3 right. exists text. reflexivity.
    - right. right. exists e. split; [exact Ho|]. split; [exact He|]. now right. }
  cbv zeta in Hlift. cbv zeta.
  unfold main.
  destruct (length argv <? 2).
  - unfold try_except, emit, bind, sys_exit, raise. cbn [fst snd is_Exception].
    eexists. split; [reflexivity|].
    right. left. split; [reflexivity|]. left. reflexivity.
  - destruct (2 <? length argv).
    + destruct (json_loads (nth 2 argv [])) as [v|e].
      * exact (Hlift v).
      * destruct e as [m|m|m|m|code|];
          unfold try_except, lift, emit, bind, sys_exit, raise;
          cbn [is_Exception fst snd exn_str].
        -- exists [Print (py "AGENT_ERROR_START"); Print (py "Error: " ++ m);
                   Print (py "AGENT_ERROR_END")].
           split; [rewrite <- !app_assoc; reflexivity|].
           right. left. split; [reflexivity|]. do 2 right. left. exists m. reflexivity.
        -- exists [Print (py "AGENT_ERROR_START"); Print (py "Error: " ++ m);
                   Print (py "AGENT_ERROR_END")].
           split; [rewrite <- !app_assoc; reflexivity|].
           right. left. split; [reflexivity|]. do 2 right. left. exists m. reflexivity.
        -- eexists. split; [reflexivity|].
           right. left. split; [reflexivity|]. right. left. exists m. reflexivity.
        -- exists [Print (py "AGENT_ERROR_START"); Print (py "Error: " ++ m);
                   Print (py "AGENT_ERROR_END")].
           split; [rewrite <- !app_assoc; reflexivity|].
           right. left. split; [reflexivity|]. do 2 right. left. exists m. reflexivity.
        -- exists []. split; [now rewrite app_nil_r|].
           right. right. eexists. split; [reflexivity|]. split; [reflexivity | now left].
        -- exists []. split; [now rewrite app_nil_r|].
           right. right. eexists. split; [reflexivity|]. split; [reflexivity | now left].
    + exact (Hlift (PDict [])).
Qed.

End Runner.
End RunnerCoverage.

(** ** The further properties on the scenarios *)

Module CoverageWitness.
Import SportsTools StockTools AgentRunner Spec.
Import SportsCoverage StockCoverage RunnerCoverage.

Lemma search_teams_query_is_clean_witness :
  (In (HttpGet api_url (py "Arsenal"))
      (snd (search_teams Scenario.remote Scenario.str0 (PStr (py "  Arsenal ")) []))
   /\ ~ In (HttpGet api_url (py "Arsenal")) [])
  /\ api_url = api_url
  /\ py "Arsenal" <> []
  /\ forallb team_name_char (py "Arsenal") = true
  /\ length (py "Arsenal") <= 50
  /\ strip (py "Arsenal") = py "Arsenal".
Proof.
  split; [split; [left; reflexivity | intros []]|].
  apply (search_teams_query_is_clean Scenario.remote Scenario.str0
           (PStr (py "  Arsenal ")) [] api_url (py "Arsenal")).
  - left. reflexivity.
  - intros [].
Defined.

Lemma search_teams_ignores_padding_witness :
  exists d w',
    (forallb isspace (py "  ") = true /\ forallb isspace (py " ") = true
     /\ search_teams Scenario.remote Scenario.str0 (PStr (py "Arsenal")) []
        = (Return d, w')
     /\ dict_get d (py "success") = Some (PBool true))
    /\ search_teams Scenario.remote Scenario.str0
         (PStr (py "  " ++ py "Arsenal" ++ py " ")) []
       = (Return d, w').
Proof.
  eexists. eexists. split.
  - split; [reflexivity|]. split; [reflexivity|].
    split; [vm_compute; reflexivity | reflexivity].
  - eapply (search_teams_ignores_padding Scenario.remote Scenario.str0
             (py "  ") (py "Arsenal") (py " ") []); reflexivity.
Defined.

Lemma search_teams_http_error_witness :
  (accepted (py "Down") = true
   /\ Scenario2.remote api_url (strip (py "Down")) = Return Scenario2.unavailable
   /\ (400 <= status_code Scenario2.unavailable < 600)%Z)
  /\ exists d,
       search_teams Scenario2.remote Scenario.str0 (PStr (py "Down")) []
       = (Return d, [] ++ [HttpGet api_url (strip (py "Down"))])
       /\ dict_get d (py "success") = Some (PBool false)
       /\ dict_get d (py "network_error") = Some (PBool true)
       /\ dict_get d (py "technical_details")
          = Some (PStr (http_error Scenario2.unavailable))
       /\ dict_get d (py "team_name") = Some (PStr (py "Down"))
       /\ has_key d (py "teams") = false.
Proof.
  split; [split; [reflexivity | split; [reflexivity | cbn; lia]]|].
  apply (search_teams_http_error Scenario2.remote Scenario.str0 (py "Down") []
           Scenario2.unavailable); [reflexivity | reflexivity | cbn; lia].
Defined.

Lemma search_teams_transport_error_witness :
  (accepted (py "Offline") = true
   /\ Scenario2.remote api_url (strip (py "Offline"))
      = Raise (RequestException (py "Connection refused")))
  /\ exists d,
       search_teams Scenario2.remote Scenario.str0 (PStr (py "Offline")) []
       = (Return d, [] ++ [HttpGet api_url (strip (py "Offline"))])
       /\ dict_get d (py "success") = Some (PBool false)
       /\ dict_get d (py "network_error") = Some (PBool true)
       /\ dict_get d (py "technical_details") = Some (PStr (py "Connection refused"))
       /\ dict_get d (py "team_name") = Some (PStr (py "Offline"))
       /\ has_key d (py "timeout_error") = false.
Proof.
  split; [split; reflexivity|].
  apply (search_teams_transport_error Scenario2.remote Scenario.str0 (py "Offline") []
           (py "Connection refused")); reflexivity.
Defined.

Lemma search_teams_not_an_object_witness :
  (accepted (py "Listy") = true
   /\ Scenario2.remote api_url (strip (py "Listy"))
      = Return (Scenario.ok_response (PList []))
   /\ isinstance_dict (PList []) = false)
  /\ exists d,
       search_teams Scenario2.remote Scenario.str0 (PStr (py "Listy")) []
       = (Return d, [] ++ [HttpGet api_url (strip (py "Listy"))])
       /\ dict_get d (py "success") = Some (PBool false)
       /\ dict_get d (py "api_error") = Some (PBool true)
       /\ dict_get d (py "team_name") = Some (PStr (strip (py "Listy")))
       /\ has_key d (py "error") = true
       /\ has_key d (py "teams") = false.
Proof.
  split; [repeat split; reflexivity|].
  apply (search_teams_not_an_object Scenario2.remote Scenario.str0 (py "Listy") []
           (Scenario.ok_response (PList [])) (PList [])); reflexivity.
Defined.

Lemma search_teams_undecodable_witness :
  (accepted (py "Garbled") = true
   /\ Scenario2.remote api_url (strip (py "Garbled")) = Return Scenario2.garbled
   /\ raise_for_status Scenario2.garbled = Return tt
   /\ json Scenario2.garbled
      = Raise (JSONDecodeError (py "Expecting value: line 1 column 1 (char 0)")))
  /\ exists d,
       search_teams Scenario2.remote Scenario.str0 (PStr (py "Garbled")) []
       = (Return d, [] ++ [HttpGet api_url (strip (py "Garbled"))])
       /\ dict_get d (py "success") = Some (PBool false)
       /\ dict_get d (py "technical_error")
          = Some (PStr (py "Expecting value: line 1 column 1 (char 0)"))
       /\ has_key d (py "network_error") = false.
Proof.
  split; [repeat split; reflexivity|].
  apply (proj2 (search_teams_undecodable Scenario2.remote Scenario.str0 (py "Garbled") []
                  Scenario2.garbled (py "Expecting value: line 1 column 1 (char 0)")
                  eq_refl eq_refl eq_refl)).
  left. reflexivity.
Defined.

Lemma search_teams_success_shape_witness :
  exists d w',
    (search_teams Scenario2.remote Scenario.str0 (PStr (py "Mixed")) [] = (Return d, w')
     /\ dict_get d (py "success") = Some (PBool true))
    /\ exists s teams,
         PStr (py "Mixed") = PStr s
         /\ dict_get d (py "teams") = Some (PList teams)
         /\ dict_get d (py "count") = Some (PInt (Z.of_nat (length teams)))
         /\ dict_get d (py "search_term") = Some (PStr (strip s))
         /\ Forall record_shape teams.
Proof.
  eexists. eexists. split.
  - split; [vm_compute; reflexivity | reflexivity].
  - eapply (search_teams_success_shape Scenario2.remote Scenario.str0
             (PStr (py "Mixed")) []); reflexivity.
Defined.

(** Of the five items of the [Mixed] list, two are non-empty objects. *)
Lemma search_teams_counts_records_witness :
  exists d w',
    (accepted (py "Mixed") = true
     /\ search_teams Scenario2.remote Scenario.str0 (PStr (py "Mixed")) []
        = (Return d, w')
     /\ dict_get d (py "success") = Some (PBool true))
    /\ dict_get d (py "count") = Some (PInt 2).
Proof.
  eexists. eexists. split.
  - split; [reflexivity|]. split; [vm_compute; reflexivity | reflexivity].
  - eapply (search_teams_counts_records Scenario2.remote Scenario.str0 (py "Mixed") [] _
             (Scenario.ok_response
                (PDict [ (py "teams",
                           PList [PNone; PDict Scenario.arsenal; PStr (py "x");
                                  PDict Scenario.bare; PDict []]) ]))
             [ (py "teams",
                 PList [PNone; PDict Scenario.arsenal; PStr (py "x");
                        PDict Scenario.bare; PDict []]) ]
             [PNone; PDict Scenario.arsenal; PStr (py "x"); PDict Scenario.bare; PDict []]);
      reflexivity.
Defined.

(** The [numbered] record comes after a good one, and fails the search. *)
Lemma search_teams_bad_description_witness :
  (accepted (py "Numbered") = true
   /\ In (PDict Scenario2.numbered) [PDict Scenario.arsenal; PDict Scenario2.numbered]
   /\ dict_get Scenario2.numbered (py "strDescriptionEN") = Some (PInt 5)
   /\ is_number (PInt 5) = true /\ truthy (PInt 5) = true)
  /\ exists d,
       search_teams Scenario2.remote Scenario.str0 (PStr (py "Numbered")) []
       = (Return d, [] ++ [HttpGet api_url (strip (py "Numbered"))])
       /\ dict_get d (py "success") = Some (PBool false)
       /\ has_key d (py "technical_error") = true
       /\ has_key d (py "teams") = false.
Proof.
  split; [split; [reflexivity | split; [right; left; reflexivity | repeat split]]|].
  apply (search_teams_bad_description Scenario2.remote Scenario.str0 (py "Numbered") []
           (Scenario.ok_response
              (PDict [ (py "teams",
                         PList [PDict Scenario.arsenal; PDict Scenario2.numbered]) ]))
           [ (py "teams", PList [PDict Scenario.arsenal; PDict Scenario2.numbered]) ]
           [PDict Scenario.arsenal; PDict Scenario2.numbered]
           Scenario2.numbered (PInt 5));
    try reflexivity.
  right. left. reflexivity.
Defined.

Lemma search_teams_teams_not_a_list_witness :
  (accepted (py "Texty") = true
   /\ dict_get [ (py "teams", PStr (py "none")) ] (py "teams") = Some (PStr (py "none"))
   /\ truthy (PStr (py "none")) = true
   /\ isinstance_str (PStr (py "none")) = true)
  /\ search_teams Scenario2.remote Scenario.str0 (PStr (py "Texty")) []
     = (Return (teams_result [] (strip (py "Texty"))
                  (header_date (Scenario.ok_response
                                  (PDict [ (py "teams", PStr (py "none")) ])))),
        [] ++ [HttpGet api_url (strip (py "Texty"))]).
Proof.
  split; [repeat split; reflexivity|].
  apply (proj1 (search_teams_teams_not_a_list Scenario2.remote Scenario.str0
                  (py "Texty") []
                  (Scenario.ok_response (PDict [ (py "teams", PStr (py "none")) ]))
                  [ (py "teams", PStr (py "none")) ] (PStr (py "none"))
                  eq_refl eq_refl eq_refl eq_refl eq_refl eq_refl)).
  left. reflexivity.
Defined.

Lemma search_teams_one_marker_witness :
  exists d w',
    search_teams Scenario2.remote Scenario.str0 (PStr (py "Down")) [] = (Return d, w')
    /\ ((dict_get d (py "success") = Some (PBool true) /\ markers_of d = [])
        \/ (dict_get d (py "success") = Some (PBool false)
            /\ exists marker, markers_of d = [marker])).
Proof.
  eexists. eexists. split; [vm_compute; reflexivity|].
  eapply (search_teams_one_marker Scenario2.remote Scenario.str0 (PStr (py "Down")) []).
  reflexivity.
Defined.

Lemma search_teams_marker_iff_no_request_witness :
  exists d w',
    search_teams Scenario.remote Scenario.str0 (PStr (py "Ars;")) [] = (Return d, w')
    /\ (has_key d (py "validation_failed") = true <-> w' = []).
Proof.
  eexists. eexists. split; [vm_compute; reflexivity|].
  eapply (search_teams_marker_iff_no_request Scenario.remote Scenario.str0
           (PStr (py "Ars;")) []).
  reflexivity.
Defined.

(** The stadium of the [arsenal] record is null, and stays null. *)
Lemma present_fields_pass_through_witness :
  exists p,
    (processed_team Scenario.arsenal = Return p
     /\ In (py "strStadium", py "venue", PStr (py "Unknown Venue")) default_table
     /\ py "strStadium" <> py "strDescriptionEN"
     /\ dict_get Scenario.arsenal (py "strStadium") = Some PNone)
    /\ dict_get p (py "venue") = Some PNone.
Proof.
  eexists. split.
  - split; [vm_compute; reflexivity|].
    split; [do 6 right; left; reflexivity|].
    split; [discriminate | reflexivity].
  - apply (present_fields_pass_through Scenario.arsenal _ eq_refl
             (py "strStadium") (py "venue") (PStr (py "Unknown Venue")) PNone).
    + do 6 right. left. reflexivity.
    + discriminate.
    + reflexivity.
Defined.

Lemma description_bounded_witness :
  exists p,
    (processed_team Scenario.arsenal = Return p
     /\ dict_get Scenario.arsenal (py "strDescriptionEN") = Some (PStr (repeat 65%N 201)))
    /\ exists out,
         dict_get p (py "description") = Some (PStr out)
         /\ length out <= 203
         /\ firstn 200 out = firstn 200 (repeat 65%N 201).
Proof.
  eexists. split.
  - split; [vm_compute; reflexivity | reflexivity].
  - apply (description_bounded Scenario.arsenal _ (repeat 65%N 201)); reflexivity.
Defined.

Lemma get_stock_price_echoes_ticker_witness :
  exists d w',
    StockTools.get_stock_price Scenario.yf (PStr []) [] = (Return d, w')
    /\ dict_get d (py "ticker") = Some (PStr []).
Proof.
  eexists. eexists. split; [vm_compute; reflexivity|].
  eapply (get_stock_price_echoes_ticker Scenario.yf (PStr []) []).
  reflexivity.
Defined.

Lemma get_stock_price_last_row_witness :
  (Scenario2.yf_two_days (PStr (py "AAPL")) = Return Scenario2.stock_two_days
   /\ column Scenario2.two_days (py "Close")
      = Some ([S754_finite false 3 0] ++ [S754_finite false 5 0]))
  /\ exists d,
       get_stock_price Scenario2.yf_two_days (PStr (py "AAPL")) []
       = (Return d, [] ++ [YfTicker (PStr (py "AAPL")); YfInfo; YfHistory (py "1d")])
       /\ dict_get d (py "current_price") = Some (PFloat (S754_finite false 5 0))
       /\ dict_get d (py "daily_high") = Some (PFloat (S754_finite false 7 0))
       /\ dict_get d (py "daily_low") = Some (PFloat (S754_finite false 2 0))
       /\ dict_get d (py "currency") = Some (PStr (py "USD")).
Proof.
  split; [split; reflexivity|].
  eexists. split.
  - apply (get_stock_price_last_row Scenario2.yf_two_days (PStr (py "AAPL")) []
             Scenario2.stock_two_days
             [ (py "shortName", PStr (py "Apple Inc.")) ] Scenario2.two_days
             [S754_finite false 3 0] [S754_finite false 4 0] [S754_finite false 1 0]
             (S754_finite false 5 0) (S754_finite false 7 0) (S754_finite false 2 0));
      reflexivity.
  - repeat split.
Defined.

Lemma get_stock_price_no_rows_witness :
  (Scenario2.yf_empty (PStr (py "NOPE"))
   = Return {| info := Return [];
               history := fun _ => Return {| column := fun _ => Some [] |} |})
  /\ exists text,
       get_stock_price Scenario2.yf_empty (PStr (py "NOPE")) []
       = (Return [ (py "error",
                     PStr (py "Failed to retrieve stock information: " ++ text));
                   (py "ticker", PStr (py "NOPE")) ],
          [] ++ [YfTicker (PStr (py "NOPE")); YfInfo; YfHistory (py "1d")]).
Proof.
  split; [reflexivity|].
  apply (get_stock_price_no_rows Scenario2.yf_empty (PStr (py "NOPE")) []
           {| info := Return [];
              history := fun _ => Return {| column := fun _ => Some [] |} |}
           [] {| column := fun _ => Some [] |});
    try reflexivity.
  left. reflexivity.
Defined.

Lemma run_agent_joins_chunks_witness :
  Scenario.runtime (py "hello") = (fst (Scenario.runtime (py "hello")), None)
  /\ run_agent Scenario.runtime Scenario.no_traceback (py "hello") (PDict []) []
     = (Return (strip (concat (map chunk_text (fst (Scenario.runtime (py "hello")))))),
        [] ++ [RunAsync (py "hello")]).
Proof.
  split; [reflexivity|].
  apply (run_agent_joins_chunks Scenario.runtime Scenario.no_traceback (py "hello")
           (PDict []) [] (fst (Scenario.runtime (py "hello")))).
  reflexivity.
Defined.

Lemma main_prints_response_witness :
  (2 <= length [py "agent_runner.py"; py "hello"; py "{}"]
   /\ Scenario.loads (nth 2 [py "agent_runner.py"; py "hello"; py "{}"] [])
      = Return (PDict []))
  /\ stdout (snd (main Scenario.loads Scenario.runtime Scenario.no_traceback
                    [py "agent_runner.py"; py "hello"; py "{}"] []))
     = stdout [] ++ py "AGENT_RESPONSE_START" ++ nl
       ++ strip (concat (map chunk_text (fst (Scenario.runtime (py "hello"))))) ++ nl
       ++ py "AGENT_RESPONSE_END" ++ nl
  /\ exit_status (fst (main Scenario.loads Scenario.runtime Scenario.no_traceback
                         [py "agent_runner.py"; py "hello"; py "{}"] [])) = 0%Z.
Proof.
  split; [split; [cbn; lia | reflexivity]|].
  apply (main_prints_response Scenario.loads Scenario.runtime Scenario.no_traceback
           [py "agent_runner.py"; py "hello"; py "{}"] []
           (fst (Scenario.runtime (py "hello")))).
  - cbn. lia.
  - right. exists (PDict []). reflexivity.
  - reflexivity.
Defined.

Lemma main_reports_runtime_failure_witness :
  (2 <= length [py "agent_runner.py"; py "hello"]
   /\ length [py "agent_runner.py"; py "hello"] = 2
   /\ is_Exception (OtherException (py "model unavailable")) = true)
  /\ main Scenario.loads Scenario2.failing_runtime Scenario.no_traceback
       [py "agent_runner.py"; py "hello"] []
     = (Raise (SystemExit 1),
        [] ++ [RunAsync (py "hello"); Print (py "AGENT_ERROR_START");
               Print (py "Error: " ++ py "Agent execution error: "
                      ++ exn_str (OtherException (py "model unavailable"))
                      ++ nl ++ Scenario.no_traceback
                                 (OtherException (py "model unavailable")));
               Print (py "AGENT_ERROR_END")]).
Proof.
  split; [split; [cbn; lia | split; reflexivity]|].
  apply (main_reports_runtime_failure Scenario.loads Scenario2.failing_runtime
           Scenario.no_traceback [py "agent_runner.py"; py "hello"] []
           (fst (Scenario2.failing_runtime (py "hello")))
           (OtherException (py "model unavailable"))).
  - cbn. lia.
  - left. reflexivity.
  - reflexivity.
  - reflexivity.
Defined.

Lemma main_ignores_context_witness :
  Scenario.loads (py "{}") = Return (PDict [])
  /\ main Scenario.loads Scenario.runtime Scenario.no_traceback
       [py "agent_runner.py"; py "hello"; py "{}"; py "more"] []
     = main Scenario.loads Scenario.runtime Scenario.no_traceback
         [py "agent_runner.py"; py "hello"] [].
Proof.
  split; [reflexivity|].
  apply (main_ignores_context Scenario.loads Scenario.runtime Scenario.no_traceback
           (py "agent_runner.py") (py "hello") (py "{}") [py "more"] [] (PDict [])).
  reflexivity.
Defined.

Lemma main_usage_witness :
  length [py "agent_runner.py"] < 2
  /\ runtime_calls (snd (main Scenario.loads Scenario.runtime Scenario.no_traceback
                           [py "agent_runner.py"] [])) = runtime_calls [].
Proof.
  split; [cbn; lia|].
  apply (main_usage Scenario.loads Scenario.runtime Scenario.no_traceback
           [py "agent_runner.py"] []).
  cbn. lia.
Defined.

Lemma main_parser_crash_witness :
  (2 < length [py "agent_runner.py"; py "hello"; py "[[[["]
   /\ Scenario2.deep_loads (nth 2 [py "agent_runner.py"; py "hello"; py "[[[["] [])
      = Raise (OtherException (py "maximum recursion depth exceeded")))
  /\ main Scenario2.deep_loads Scenario.runtime Scenario.no_traceback
       [py "agent_runner.py"; py "hello"; py "[[[["] []
     = (Raise (SystemExit 1),
        [] ++ [Print (py "AGENT_ERROR_START");
               Print (py "Error: " ++ py "maximum recursion depth exceeded");
               Print (py "AGENT_ERROR_END")]).
Proof.
  split; [split; [cbn; lia | reflexivity]|].
  apply (main_parser_crash Scenario2.deep_loads Scenario.runtime Scenario.no_traceback
           [py "agent_runner.py"; py "hello"; py "[[[["] []
           (py "maximum recursion depth exceeded")).
  - cbn. lia.
  - reflexivity.
Defined.

End CoverageWitness.

(** ** [test_simple_tool.test] *)

Module TestCoverage.
Import SimpleToolTest Spec.

Lemma loop_body_continue (chunk_count : nat) (chunk : Chunk) :
  fst (loop_body chunk_count chunk) = Continue -> chunk_count <= 10.
Proof.
  unfold loop_body. destruct (10 <? chunk_count) eqn:H; [discriminate|].
  intros _. now apply Nat.ltb_ge in H.
Qed.

(** From the count [n], the loop reads the chunks up to the eleventh and
    nothing after it. *)
Lemma for_chunks_bounded (chunks : list Chunk) (failure : option exn) (n : nat) :
  n <= 10 -> 11 <= n + length chunks ->
  for_chunks chunks failure n = for_chunks (firstn (11 - n) chunks) None n.
Proof.
  revert n. induction chunks as [|chunk rest IH]; intros n Hn Hlen.
  - cbn in Hlen. lia.
  - replace (11 - n) with (S (10 - n)) by lia.
    cbn [firstn for_chunks].
    destruct (loop_body (S n) chunk) as [ctl evs] eqn:Hbody.
    destruct ctl; try reflexivity.
    assert (Hn' : S n <= 10).
    { apply (loop_body_continue (S n) chunk). now rewrite Hbody. }
    rewrite (IH (S n) Hn') by (cbn in Hlen; lia).
    replace (11 - S n) with (10 - n) by lia. reflexivity.
Qed.

Lemma for_parts_events (ps : list Part) :
  filter is_stdin (snd (for_parts ps)) = [].
Proof.
  induction ps as [|part rest IH]; cbn [for_parts]; [reflexivity|].
  destruct (function_call part) as [[name|e]|]; [reflexivity | reflexivity | exact IH].
Qed.

Lemma loop_body_events (chunk_count : nat) (chunk : Chunk) :
  filter is_stdin (snd (loop_body chunk_count chunk)) = [].
Proof.
  unfold loop_body. destruct (10 <? chunk_count); [reflexivity|].
  destruct (content chunk) as [c|]; [|reflexivity].
  destruct (parts c) as [[ps|e]|]; try reflexivity.
  pose proof (for_parts_events ps) as H.
  destruct (for_parts ps) as [ctl evs]. cbn [snd filter is_stdin] in *. exact H.
Qed.

Lemma for_chunks_events (chunks : list Chunk) (failure : option exn) (n : nat) :
  filter is_stdin (snd (for_chunks chunks failure n)) = [].
Proof.
  revert n. induction chunks as [|chunk rest IH]; intros n; cbn [for_chunks].
  - destruct failure; reflexivity.
  - pose proof (loop_body_events (S n) chunk) as Hbody.
    destruct (loop_body (S n) chunk) as [ctl evs]. cbn [snd] in Hbody.
    destruct ctl; try exact Hbody.
    pose proof (IH (S n)) as Hrest.
    destruct (for_chunks rest failure (S n)) as [ctl' evs']. cbn [snd] in *.
    now rewrite filter_app, Hbody, Hrest.
Qed.

Lemma for_parts_true (ps : list Part) :
  fst (for_parts ps) = ReturnTrue ->
  exists part name,
    In part ps /\ function_call part = Some (Return name)
    /\ snd (for_parts ps) = [TPrint (tool_call_found name)].
Proof.
  induction ps as [|part rest IH]; cbn [for_parts]; [discriminate|].
  destruct (function_call part) as [[name|e]|] eqn:Hfc.
  - intros _. exists part, name. repeat split; [now left | exact Hfc].
  - discriminate.
  - intros H. destruct (IH H) as (p & name & Hin & Hp & Hev).
    exists p, name. repeat split; [now right | exact Hp | exact Hev].
Qed.

Lemma for_chunks_true (chunks : list Chunk) (failure : option exn) (n : nat) :
  fst (for_chunks chunks failure n) = ReturnTrue ->
  exists chunk c ps part name,
    In chunk (firstn (10 - n) chunks)
    /\ content chunk = Some c /\ parts c = Some (Return ps)
    /\ In part ps /\ function_call part = Some (Return name)
    /\ In (TPrint (tool_call_found name)) (snd (for_chunks chunks failure n)).
Proof.
  revert n. induction chunks as [|chunk rest IH]; intros n; cbn [for_chunks].
  - destruct failure; discriminate.
  - destruct (loop_body (S n) chunk) as [ctl evs] eqn:Hbody.
    destruct ctl; cbn [fst snd]; try discriminate.
    + assert (Hn : S n <= 10).
      { apply (loop_body_continue (S n) chunk). now rewrite Hbody. }
      pose proof (IH (S n)) as Hrest.
      destruct (for_chunks rest failure (S n)) as [ctl' evs']. cbn [fst snd] in *.
      intros H. destruct (Hrest H) as (ch & c & ps & p & name & Hin & Hc & Hps & Hp & Hfc & Hev).
      exists ch, c, ps, p, name. repeat split; trivial.
      * replace (10 - n) with (S (10 - S n)) by lia. cbn [firstn]. now right.
      * apply in_or_app. now right.
    + intros _. unfold loop_body in Hbody.
      destruct (10 <? S n) eqn:Hlt; [discriminate|]. apply Nat.ltb_ge in Hlt.
      destruct (content chunk) as [c|] eqn:Hc; [|discriminate].
      destruct (parts c) as [[ps|e]|] eqn:Hps; try discriminate.
      pose proof (for_parts_true ps) as Htrue.
      destruct (for_parts ps) as [ctl0 evs0]. cbn [fst snd] in Htrue.
      injection Hbody as -> <-.
      destruct (Htrue eq_refl) as (p & name & Hin & Hfc & ->).
      exists chunk, c, ps, p, name. repeat split; trivial.
      * replace (10 - n) with (S (10 - S n)) by lia. cbn [firstn]. now left.
      * right. now left.
Qed.

Lemma for_parts_skip (skipped ps : list Part) :
  Forall (fun part => function_call part = None) skipped ->
  for_parts (skipped ++ ps) = for_parts ps.
Proof.
  induction 1 as [|part skipped Hpart _ IH]; cbn [app for_parts]; [reflexivity|].
  now rewrite Hpart.
Qed.

Section Test.

Variable imports : option exn.
Variable make_context : option exn.

(** X27.  [test] reads at most eleven chunks: of a longer stream, what comes
    after the eleventh chunk, and how the stream ends, changes neither the
    result nor what is printed. *)
Theorem test_reads_eleven_chunks (chunks : list Chunk) (failure : option exn) :
  11 <= length chunks ->
  test imports make_context (chunks, failure)
  = test imports make_context (firstn 11 chunks, None).
Proof.
  intros Hlen. unfold test.
  rewrite (for_chunks_bounded chunks failure 0) by lia.
  rewrite (for_chunks_bounded (firstn 11 chunks) None 0)
    by (rewrite ?length_firstn; lia).
  cbn [Nat.sub]. rewrite firstn_firstn, Nat.min_id. reflexivity.
Qed.

(** X28.  [sys.stdin] is replaced only after the imports and the context
    succeeded, and whenever it was replaced it is restored, however the loop
    ends: on [return True], on [break], on an exception. *)
Theorem test_restores_stdin (run_async : list Chunk * option exn) :
  filter is_stdin (snd (test imports make_context run_async))
  = match imports, make_context with
    | None, None => [StdinSet (py "Arsenal" ++ [10%N]); StdinRestored]
    | _, _ => []
    end.
Proof.
  unfold test, test_except.
  destruct imports as [e|].
  - destruct (is_Exception e); reflexivity.
  - destruct make_context as [e|].
    + destruct (is_Exception e); reflexivity.
    + destruct run_async as [chunks failure].
      pose proof (for_chunks_events chunks failure 0) as Hloop.
      destruct (for_chunks chunks failure 0) as [ctl looped]. cbn [snd] in Hloop.
      destruct ctl as [| | |e]; try destruct (is_Exception e); cbn [snd];
        rewrite ?filter_app, Hloop; reflexivity.
Qed.

(** X29.  [test] returns [True] only when one of the first ten chunks has a
    content with parts, one of which has a [function_call] whose name could
    be read; that name is printed. *)
Theorem test_true_means_tool_call (chunks : list Chunk) (failure : option exn) :
  fst (test imports make_context (chunks, failure)) = Return true ->
  exists chunk c ps part name,
    In chunk (firstn 10 chunks)
    /\ content chunk = Some c /\ parts c = Some (Return ps)
    /\ In part ps /\ function_call part = Some (Return name)
    /\ In (TPrint (tool_call_found name))
          (snd (test imports make_context (chunks, failure))).
Proof.
  unfold test, test_except.
  destruct imports as [e|]; [destruct (is_Exception e); discriminate|].
  destruct make_context as [e|]; [destruct (is_Exception e); discriminate|].
  pose proof (for_chunks_true chunks failure 0) as Hloop.
  destruct (for_chunks chunks failure 0) as [ctl looped]. cbn [fst snd] in Hloop.
  destruct ctl as [| | |e]; try destruct (is_Exception e); cbn [fst snd];
    try discriminate.
  intros _. destruct (Hloop eq_refl)
    as (ch & c & ps & p & name & Hin & Hc & Hps & Hp & Hfc & Hev).
  exists ch, c, ps, p, name. repeat split; trivial.
  apply in_or_app. right. apply in_or_app. right. apply in_or_app. now left.
Qed.

End Test.

(** X30.  The first part that has the attribute decides.  When its
    [function_call] holds [None], reading the name raises: [test] prints the
    error and returns [False], whatever the parts and the chunks after it
    hold. *)
Theorem test_none_function_call (chunk : Chunk) (rest : list Chunk)
  (failure : option exn) (c : Content) (skipped ps : list Part) (part : Part)
  (e : exn) :
  content chunk = Some c ->
  parts c = Some (Return (skipped ++ part :: ps)) ->
  Forall (fun p => function_call p = None) skipped ->
  function_call part = Some (Raise e) ->
  is_Exception e = true ->
  test None None (chunk :: rest, failure)
  = (Return false,
     [ TPrint ([129514%N] ++ py " Testing minimal tool calling...");
       StdinSet (py "Arsenal" ++ [10%N]);
       TPrint ([128640%N] ++ py " Testing with 'Arsenal'...");
       TRunAsync;
       TPrint ([128230%N] ++ py " Chunk 1: " ++ type_name chunk);
       StdinRestored;
       TPrint ([10060%N] ++ py " Error: " ++ exn_str e) ]).
Proof.
  intros Hc Hps Hskipped Hpart He.
  unfold test. cbn [for_chunks]. unfold loop_body.
  change (10 <? 1) with false. cbv iota.
  rewrite Hc, Hps, (for_parts_skip skipped (part :: ps) Hskipped).
  cbn [for_parts]. rewrite Hpart. unfold test_except. rewrite He.
  reflexivity.
Qed.

End TestCoverage.

Module TestWitness.
Import SimpleToolTest Spec TestCoverage.

(** Twelve chunks without content: the twelfth is not read. *)
Lemma test_reads_eleven_chunks_witness :
  11 <= length (repeat Scenario2.empty_event 12)
  /\ test None None (repeat Scenario2.empty_event 12, Some KeyboardInterrupt)
     = test None None (firstn 11 (repeat Scenario2.empty_event 12), None).
Proof.
  split; [cbn; lia|].
  apply (test_reads_eleven_chunks None None (repeat Scenario2.empty_event 12)
           (Some KeyboardInterrupt)).
  cbn. lia.
Defined.

(** The second chunk carries the call of [simple_search]. *)
Lemma test_true_means_tool_call_witness :
  fst (test None None
         ([Scenario2.empty_event;
           Scenario2.event_with [Scenario2.bare_part; Scenario2.call_part]], None))
  = Return true
  /\ exists chunk c ps part name,
       In chunk (firstn 10 [Scenario2.empty_event;
                            Scenario2.event_with
                              [Scenario2.bare_part; Scenario2.call_part]])
       /\ content chunk = Some c /\ parts c = Some (Return ps)
       /\ In part ps /\ function_call part = Some (Return name)
       /\ In (TPrint (tool_call_found name))
             (snd (test None None
                     ([Scenario2.empty_event;
                       Scenario2.event_with
                         [Scenario2.bare_part; Scenario2.call_part]], None))).
Proof.
  split; [reflexivity|].
  apply (test_true_means_tool_call None None
           [Scenario2.empty_event;
            Scenario2.event_with [Scenario2.bare_part; Scenario2.call_part]] None).
  reflexivity.
Defined.

(** A text part, whose [function_call] holds [None], before the call. *)
Lemma test_none_function_call_witness :
  (content (Scenario2.event_with [Scenario2.bare_part; Scenario2.text_part;
                                  Scenario2.call_part])
   = Some {| parts := Some (Return ([Scenario2.bare_part]
                                    ++ Scenario2.text_part :: [Scenario2.call_part])) |}
   /\ Forall (fun p => function_call p = None) [Scenario2.bare_part]
   /\ is_Exception (OtherException (py "'NoneType' object has no attribute 'name'"))
      = true)
  /\ test None None
       ([Scenario2.event_with [Scenario2.bare_part; Scenario2.text_part;
                               Scenario2.call_part]], None)
     = (Return false,
        [ TPrint ([129514%N] ++ py " Testing minimal tool calling...");
          StdinSet (py "Arsenal" ++ [10%N]);
          TPrint ([128640%N] ++ py " Testing with 'Arsenal'...");
          TRunAsync;
          TPrint ([128230%N] ++ py " Chunk 1: " ++ py "Event");
          StdinRestored;
          TPrint ([10060%N] ++ py " Error: "
                  ++ py "'NoneType' object has no attribute 'name'") ]).
Proof.
  split; [split; [reflexivity | split; [repeat constructor | reflexivity]]|].
  apply (test_none_function_call
           (Scenario2.event_with [Scenario2.bare_part; Scenario2.text_part;
                                  Scenario2.call_part])
           [] None
           {| parts := Some (Return ([Scenario2.bare_part]
                                     ++ Scenario2.text_part :: [Scenario2.call_part])) |}
           [Scenario2.bare_part] [Scenario2.call_part] Scenario2.text_part
           (OtherException (py "'NoneType' object has no attribute 'name'")));
    try reflexivity.
  repeat constructor.
Defined.

End TestWitness.

(** ** The grammar and the transport on examples *)

Module RevisionExamples.
Import Spec.

Example empty_object_is_json : rfc8259_valid (py "{}").
Proof.
  exists []. split; [|reflexivity]. vm_compute.
  apply V_empty_object. reflexivity.
Qed.

(** [[1, -2.5e+3, true]] *)
Example array_is_json : rfc8259_valid (py "[1, -2.5e+3, true]").
Proof.
  exists []. split; [|reflexivity]. vm_compute.
  apply V_array.
  eapply E_more; [apply V_number; vm_compute; reflexivity | vm_compute; reflexivity |].
  eapply E_more; [apply V_number; vm_compute; reflexivity | vm_compute; reflexivity |].
  eapply E_last; [apply V_true; vm_compute; reflexivity | reflexivity].
Qed.

(** An object with a member: a name in quotation marks, a colon, [null]. *)
Example member_is_json :
  rfc8259_valid (py "{" ++ [34%N] ++ py "a" ++ [34%N] ++ py ": null}").
Proof.
  exists []. split; [|reflexivity]. vm_compute.
  apply V_object.
  eapply M_last.
  - vm_compute. reflexivity.
  - vm_compute. reflexivity.
  - apply V_null. vm_compute. reflexivity.
  - reflexivity.
Qed.

Example word_is_not_json : ~ rfc8259_valid (py "not-json").
Proof.
  intros (r & Hvalue & _). vm_compute in Hvalue.
  RunnerProps.no_json_value Hvalue.
Qed.

(** A leading zero: the number ends after the zero, and a digit follows. *)
Example leading_zero_is_not_json : ~ rfc8259_valid (py "01").
Proof.
  intros (r & Hvalue & Hrest). vm_compute in Hvalue.
  inversion Hvalue; subst;
    try match goal with
        | E : _ = _ ++ _ |- _ => vm_compute in E; discriminate E
        end.
  match goal with
  | E : json_number _ = Some _ |- _ => vm_compute in E; injection E as <-
  end.
  discriminate Hrest.
Qed.

(** A time-out before the head of the answer gives the time-out result;
    one in the body gives the network error. *)
Example time_out_by_stage :
  dict_get
    (match fst (SportsTools.search_teams
                  (fun _ _ => Requests.reported (Requests.HeadTimedOut (py "Read timed out.")))
                  Scenario.str0 (PStr (py "Arsenal")) []) with
     | Return d => d
     | Raise _ => []
     end) (py "timeout_error") = Some (PBool true)
  /\ dict_get
       (match fst (SportsTools.search_teams
                     (fun _ _ => Requests.reported Scenario2.stalled)
                     Scenario.str0 (PStr (py "Arsenal")) []) with
        | Return d => d
        | Raise _ => []
        end) (py "network_error") = Some (PBool true).
Proof. split; vm_compute; reflexivity. Qed.

End RevisionExamples.
